(** * need_to_shovel: the snow notifier of [need_to_shovel.js]

    A shallow embedding of the webtask in [src/need_to_shovel.js] and the
    properties of its three steps: the dedup gate ([module.exports]), the snow
    aggregator ([getPrecipationData]) and the notifier
    ([pushNotificationIfNeeded]).

    Modelling choices.
    - A [moment] object is its instant: milliseconds since the Unix epoch, in
      [Z].  In the program the zone [TZ] enters through [utcOffset], the
      offset of local time from UTC in milliseconds in force at the clock
      readings (America/Toronto: [-18000000] under EST, [-14400000] under
      EDT).  The bounds of the overnight window reach into the day before, so
      for them the rules of moment-timezone are also given for a zone whose
      offset changes ([ZoneRules]); on a zone that keeps its offset the two
      agree.
    - Snow depths are JavaScript numbers, that is doubles.  A finite double
      is modelled by its exact rational value in [Q]: comparisons are exact,
      and an addition rounds to the nearest double, ties to even
      ([doubleAdd]).  Infinity and NaN have no rational value; a sum can reach
      them only by leaving the range of the doubles, which [staysFinite]
      excludes where it matters.
    - The external collaborators (clock, key-value storage, weather provider,
      Pushover) are a [World] of answers; what the program does to them is a
      trace of [Event]s, threaded through a state monad. *)

From Stdlib Require Import ZArith QArith Qabs Bool List String Lia.
Import ListNotations.

Local Open Scope Z_scope.

(** ** Constants of the script *)

Definition DEBUG_LEVEL : Z := 1.

(** Snow levels (in cm) that are worth waking up early to. *)
Definition MINIMUM_SNOW_0500 : Q := inject_Z 40.
Definition MINIMUM_SNOW_0600 : Q := inject_Z 20.
Definition MINIMUM_SNOW_0630 : Q := inject_Z 5.

(** [a > b] on numbers. *)
Definition num_gt (a b : Q) : bool := negb (Qle_bool a b).

(** ** The part of moment / moment-timezone the script uses *)

Definition MS_PER_SECOND : Z := 1000.
Definition MS_PER_MINUTE : Z := 60000.
Definition MS_PER_HOUR : Z := 3600000.
Definition MS_PER_DAY : Z := 86400000.

(** *** In a zone that keeps its offset

    The rules below are those of a zone whose offset is [utcOffset] at every
    instant they touch.  [ZoneRules] gives them for a zone whose offset
    changes. *)

Section Zone.

(** Offset of the zone [TZ] from UTC, in milliseconds. *)
Variable utcOffset : Z.

(** Wall-clock milliseconds of an instant in the zone. *)
Definition localMs (m : Z) : Z := m + utcOffset.

(** Milliseconds since local midnight. *)
Definition timeOfDay (m : Z) : Z := localMs m mod MS_PER_DAY.

Definition hourOf (m : Z) : Z := timeOfDay m / MS_PER_HOUR.
Definition minuteOf (m : Z) : Z := (localMs m mod MS_PER_HOUR) / MS_PER_MINUTE.
Definition secondOf (m : Z) : Z := (localMs m mod MS_PER_MINUTE) / MS_PER_SECOND.
Definition millisecondOf (m : Z) : Z := localMs m mod MS_PER_SECOND.

(** [m.startOf('day')] *)
Definition startOfDay (m : Z) : Z := m - timeOfDay m.

(** The setters [m.hours(h)], [m.minutes(n)], [m.seconds(n)],
    [m.milliseconds(n)]: one field changes, the others stay. *)
Definition hours (h m : Z) : Z := m + (h - hourOf m) * MS_PER_HOUR.
Definition minutes (n m : Z) : Z := m + (n - minuteOf m) * MS_PER_MINUTE.
Definition seconds (n m : Z) : Z := m + (n - secondOf m) * MS_PER_SECOND.
Definition milliseconds (n m : Z) : Z := m + (n - millisecondOf m).

(** [m.subtract(n, 'days')] *)
Definition subtractDays (n m : Z) : Z := m - n * MS_PER_DAY.

(** [m.format("YYYY-MM-DD")]: the local calendar day.  The string is a
    one-to-one rendering of the day number, which stands for it here. *)
Definition formatDate (m : Z) : Z := localMs m / MS_PER_DAY.

End Zone.

(** *** The same rules in a zone whose offset changes

    moment-timezone keeps, with the instant of a moment, the offset in force
    at that instant.  A setter changes the wall-clock fields; then the offset
    is looked up again.  After [hours] and [subtract(n, 'days')] the wall
    clock is kept: the offset is looked up at the instant the new wall clock
    has under the old offset, and the moment becomes the instant the new wall
    clock has under the offset found.  After [minutes], [seconds] and
    [milliseconds] the instant is kept. *)

Section ZoneRules.

(** The offset from UTC, in milliseconds, in force at each instant. *)
Variable tz : Z -> Z.

(** Wall-clock milliseconds of an instant, its local day and its
    milliseconds since local midnight. *)
Definition wallOf (m : Z) : Z := m + tz m.
Definition localDayIn (m : Z) : Z := wallOf m / MS_PER_DAY.
Definition timeOfDayIn (m : Z) : Z := wallOf m mod MS_PER_DAY.

(** The instant of the wall clock [wall] for a moment whose offset was
    [old]. *)
Definition keepWall (wall old : Z) : Z := wall - tz (wall - old).

(** [m.hours(h)], [m.minutes(n)], [m.seconds(n)], [m.milliseconds(n)] *)
Definition hoursIn (h m : Z) : Z :=
  keepWall (wallOf m + (h - timeOfDayIn m / MS_PER_HOUR) * MS_PER_HOUR) (tz m).
Definition minutesIn (n m : Z) : Z :=
  m + (n - (wallOf m mod MS_PER_HOUR) / MS_PER_MINUTE) * MS_PER_MINUTE.
Definition secondsIn (n m : Z) : Z :=
  m + (n - (wallOf m mod MS_PER_MINUTE) / MS_PER_SECOND) * MS_PER_SECOND.
Definition millisecondsIn (n m : Z) : Z :=
  m + (n - wallOf m mod MS_PER_SECOND).

(** [m.subtract(n, 'days')] *)
Definition subtractDaysIn (n m : Z) : Z :=
  keepWall (wallOf m - n * MS_PER_DAY) (tz m).

(** [yesterdayEvening] and [todayMorning] of lines 85-86. *)
Definition yesterdayEveningIn (now : Z) : Z :=
  millisecondsIn 0 (secondsIn 0 (minutesIn 0 (hoursIn 21 (subtractDaysIn 1 now)))).

Definition todayMorningIn (now : Z) : Z :=
  secondsIn 0 (minutesIn 0 (hoursIn 22 now)).

(** Yesterday 21:00:00.000 and today 22:00:00.000 on the local clock, for a
    clock reading [now]: the first under the offset in force 24 hours before
    the reading, the second under the offset in force at the reading. *)
Definition yesterday2100 (now : Z) : Z :=
  (localDayIn now - 1) * MS_PER_DAY + 21 * MS_PER_HOUR - tz (now - MS_PER_DAY).

Definition today2200 (now : Z) : Z :=
  localDayIn now * MS_PER_DAY + 22 * MS_PER_HOUR - tz now.

(** The offset in force 24 hours before the reading stays in force from the
    reading's time of day yesterday to yesterday 22:00 (or from yesterday
    21:00 to that time of day, when the reading is later in the day). *)
Definition yesterdaySettled (now : Z) : Prop :=
  forall u,
    (localDayIn now - 1) * MS_PER_DAY + Z.min (timeOfDayIn now) (21 * MS_PER_HOUR)
      <= u + tz (now - MS_PER_DAY)
      < (localDayIn now - 1) * MS_PER_DAY
        + Z.max (timeOfDayIn now + 1) (22 * MS_PER_HOUR) ->
    tz u = tz (now - MS_PER_DAY).

(** The offset in force at the reading is in force from 22:00 to 23:00 of
    the reading's day. *)
Definition todaySettled (now : Z) : Prop :=
  forall u,
    localDayIn now * MS_PER_DAY + 22 * MS_PER_HOUR
      <= u + tz now
      < localDayIn now * MS_PER_DAY + 23 * MS_PER_HOUR ->
    tz u = tz now.

End ZoneRules.

(** [moment(t, "X")]: a Unix timestamp in seconds. *)
Definition momentUnix (t : Z) : Z := t * MS_PER_SECOND.

(** [a.isAfter(b)], [a.isBefore(b)] and [x.isBetween(a, b)] compare instants;
    all three are strict ([isBetween] excludes both ends when no inclusivity
    is passed). *)
Definition isAfter (a b : Z) : bool := b <? a.
Definition isBefore (a b : Z) : bool := a <? b.
Definition isBetween (x a b : Z) : bool := isAfter x a && isBefore x b.

(** ** The notifier's rule (lines 22-29) *)

Section Rules.

Variable utcOffset : Z.

Definition time0500 (now : Z) : Z := hours utcOffset 5 (startOfDay utcOffset now).
Definition time0600 (now : Z) : Z := hours utcOffset 6 (time0500 now).
Definition time0630 (now : Z) : Z := minutes utcOffset 30 (time0600 now).

(** The condition of the [if] of [pushNotificationIfNeeded]. *)
Definition snowRule (now : Z) (snowLevel : Q) : bool :=
  (isAfter now (time0500 now) && num_gt snowLevel MINIMUM_SNOW_0500)
  || (isAfter now (time0600 now) && num_gt snowLevel MINIMUM_SNOW_0600)
  || (isAfter now (time0630 now) && num_gt snowLevel MINIMUM_SNOW_0630).

End Rules.

(** ** Data *)

(** Errors handed to callbacks, and the provider's answer to a send. *)
Definition Error : Type := string.
Definition SendResult : Type := string.

(** Text built by [prefix + number + suffix], or a plain literal. *)
Inductive Text : Type :=
| Literal (s : string)
| WithNumber (prefix : string) (n : Q) (suffix : string).

(** One entry of [hourly.data] of a DarkSky answer: [time] is a Unix
    timestamp in seconds, [precipAccumulation] may be absent. *)
Record HourlyDatum : Type := {
  time : Z;
  precipAccumulation : option Q
}.

(** A DarkSky answer, as far as the script reads it: [hourly.data].  Answers
    are taken well formed: [hourly.data] is there and is an array. *)
Record Forecast : Type := { hourly_data : list HourlyDatum }.

(** The time/snow-level tuples of [snowArray]. *)
Record Sample : Type := { sample_time : Z; snow : Q }.

(** The persisted record [{ lastMessageSent: "YYYY-MM-DD" }]. *)
Record StorageData : Type := { lastMessageSent : option Z }.

(** The Pushover message. *)
Record PushoverMsg : Type := {
  message : Text;
  title : string;
  sound : string;
  retry : Z;
  expire : Z;
  priority : Z
}.

(** What [console.log] prints after its label. *)
Inductive LogArg : Type :=
| LogNothing
| LogError (e : option Error)
| LogResult (r : option SendResult)
| LogNumber (n : Q)
| LogSamples (l : list Sample).

(** What one invocation does to the outside. *)
Inductive Event : Type :=
| StorageGet
| StorageSet (d : StorageData)
| LoadTime (t : Z)
| PushoverSend (m : PushoverMsg)
| ConsoleLog (label : string) (arg : LogArg)
| Callback (error : option Error) (result : option Text).

(** Outcome of [Promise.all] over the two [loadTime] calls. *)
Inductive FetchOutcome : Type :=
| Fulfilled (yesterday today : Forecast)
| Rejected (err : Error).

(** The answers of the external collaborators during one invocation. *)
Record World : Type := {
  clock : nat -> Z;                   (* the k-th [moment()] of the run *)
  storage_get_error : option Error;   (* [error] of the [storage.get] callback *)
  fetched : FetchOutcome;
  pushover_onerror : list Error;      (* errors Pushover reports through [onerror] *)
  send_err : option Error;            (* [err] of the [send] callback *)
  send_result : option SendResult;    (* [result] of the [send] callback *)
  storage_set_error : option Error    (* [error] of the [storage.set] callback *)
}.

(** The state threaded through an invocation. *)
Record State : Type := {
  trace : list Event;             (* oldest first *)
  storage : option StorageData;   (* the persisted record, if any *)
  reads : nat;                    (* clock readings so far *)
  inflight : list PushoverMsg     (* sends whose callback has not run yet *)
}.

(** ** The state monad *)

Definition M (A : Type) : Type := State -> A * State.

Definition ret {A : Type} (a : A) : M A := fun st => (a, st).

Definition bind {A B : Type} (m : M A) (k : A -> M B) : M B :=
  fun st => let (a, st') := m st in k a st'.

Declare Scope monad_scope.
Delimit Scope monad_scope with monad.
Notation "x <- c1 ;; c2" := (bind c1 (fun x => c2))
  (at level 61, c1 at next level, right associativity) : monad_scope.
Notation "c1 ;; c2" := (bind c1 (fun _ => c2))
  (at level 61, right associativity) : monad_scope.
Local Open Scope monad_scope.

Definition when (b : bool) (m : M unit) : M unit := if b then m else ret tt.

Fixpoint forEach {A : Type} (l : list A) (f : A -> M unit) : M unit :=
  match l with
  | [] => ret tt
  | x :: l' => f x ;; forEach l' f
  end.

Definition emit (e : Event) : M unit :=
  fun st => (tt, {| trace := trace st ++ [e]; storage := storage st;
                    reads := reads st; inflight := inflight st |}).

(** [console.log(label, arg)] *)
Definition console_log (label : string) (arg : LogArg) : M unit :=
  emit (ConsoleLog label arg).

(** [cb(error, result)] *)
Definition cb (error : option Error) (result : option Text) : M unit :=
  emit (Callback error result).

(** ** The snow aggregator's computation (lines 89-98) *)

(** [v || 0] on an optional number: an absent value and zero both give [0]. *)
Definition orZero (v : option Q) : Q :=
  match v with
  | Some q => if Qeq_bool q 0 then 0%Q else q
  | None => 0%Q
  end.

(** The function mapped over the DarkSky data.  [.tz(TZ)] leaves the instant
    as it is. *)
Definition toSample (x : HourlyDatum) : Sample :=
  {| sample_time := momentUnix (time x); snow := orZero (precipAccumulation x) |}.

(** [snowArray]: the data of both days, mapped and filtered.  [.utc()] on the
    two bounds leaves their instants as they are. *)
Definition snowArray (yesterdayEvening todayMorning : Z)
    (yesterday today : Forecast) : list Sample :=
  filter (fun x => isBetween (sample_time x) yesterdayEvening todayMorning)
         (map toSample (hourly_data yesterday ++ hourly_data today)).

(** *** Addition of doubles

    [n / d] rounded to the nearest integer, ties to even. *)
Definition roundHalfEven (n d : Z) : Z :=
  let k := n / d in
  let r := n mod d in
  if 2 * r <? d then k
  else if d <? 2 * r then k + 1
  else if Z.even k then k else k + 1.

(** The integer part of the binary logarithm of [a / d], for positive [a]
    and [d]. *)
Definition floorLog2 (a d : Z) : Z :=
  let e := Z.log2 a - Z.log2 d in
  if (if 0 <=? e then d * 2 ^ e <=? a else d <=? a * 2 ^ (- e)) then e else e - 1.

(** The double nearest to a rational, ties to even: 53 significant bits,
    with the last place no lower than [2 ^ -1074]. *)
Definition round64 (q : Q) : Q :=
  let n := Qnum q in
  let d := Zpos (Qden q) in
  if n =? 0 then 0%Q
  else
    let a := Z.abs n in
    let p := Z.max (floorLog2 a d - 52) (-1074) in
    if 0 <=? p
    then Qred ((Z.sgn n * roundHalfEven a (d * 2 ^ p) * 2 ^ p) # 1)
    else Qred ((Z.sgn n * roundHalfEven (a * 2 ^ (- p)) d) # Z.to_pos (2 ^ (- p))).

(** [a + b] on numbers: the exact sum, rounded.  A rational that is no
    double is read as the double nearest to it. *)
Definition doubleAdd (a b : Q) : Q := round64 (round64 a + round64 b).

(** The largest finite double, and the test that a value lies in the range of
    the finite doubles. *)
Definition DOUBLE_MAX : Z := (2 ^ 53 - 1) * 2 ^ 971.

Definition isFinite64 (q : Q) : bool := Qle_bool (Qabs q) (inject_Z DOUBLE_MAX).

(** [snowTotal]: the [reduce] over [snowArray]. *)
Definition snowTotal (arr : list Sample) : Q :=
  fold_left (fun sum val => doubleAdd sum (snow val)) arr 0%Q.

(** Every value added and every partial sum of the [reduce], started at
    [acc], is a finite double. *)
Fixpoint staysFinite (acc : Q) (l : list Sample) : bool :=
  match l with
  | [] => true
  | x :: l' =>
      isFinite64 (round64 (snow x))
      && isFinite64 (doubleAdd acc (snow x))
      && staysFinite (doubleAdd acc (snow x)) l'
  end.

(** No addition of the [reduce], started at [acc], rounds. *)
Fixpoint addsExactly (acc : Q) (l : list Sample) : bool :=
  match l with
  | [] => true
  | x :: l' =>
      Qeq_bool (doubleAdd acc (snow x)) (acc + snow x)
      && addsExactly (doubleAdd acc (snow x)) l'
  end.

(** ** The program *)

(** The Pushover message of lines 39-46: priority 2, persistent. *)
Definition msg (snowLevel : Q) : PushoverMsg :=
  {| message := WithNumber "Time to wake up, there is over " snowLevel
                           "cm of snow outside!";
     title := "Time to Shovel!";
     sound := "persistent";
     retry := 60;
     expire := 6 * 60 * 60;
     priority := if 2 <? DEBUG_LEVEL then 0 else 2 |}.

Section Program.

Variable utcOffset : Z.
Variable w : World.

(** [moment().tz(TZ)]: the next reading of the clock. *)
Definition moment : M Z :=
  fun st => (clock w (reads st),
             {| trace := trace st; storage := storage st;
                reads := S (reads st); inflight := inflight st |}).

(** [p.send(msg, callback)]: the request leaves, the callback waits. *)
Definition pushover_send (msg : PushoverMsg) : M unit :=
  emit (PushoverSend msg) ;;
  fun st => (tt, {| trace := trace st; storage := storage st;
                    reads := reads st; inflight := inflight st ++ [msg] |}).

(** [context.storage.get(callback)] *)
Definition storage_get (k : option Error -> option StorageData -> M unit) : M unit :=
  emit StorageGet ;;
  match storage_get_error w with
  | Some e => k (Some e) None
  | None => fun st => k None (storage st) st
  end.

(** [context.storage.set(data, callback)]: a failed write leaves the record
    as it was. *)
Definition storage_set (d : StorageData) (k : option Error -> M unit) : M unit :=
  emit (StorageSet d) ;;
  match storage_set_error w with
  | Some e => k (Some e)
  | None =>
      (fun st => (tt, {| trace := trace st; storage := Some d;
                         reads := reads st; inflight := inflight st |})) ;;
      k None
  end.

(** The callback given to [p.send] (lines 49-60). *)
Definition send_callback (err : option Error) (result : option SendResult) : M unit :=
  match err with
  | Some e =>
      console_log "Cannot send pushover notification: " (LogError err) ;;
      cb err None
  | None => ret tt
  end ;;
  console_log "Sent pushover notification: " (LogResult result) ;;
  today <- moment ;;
  storage_set {| lastMessageSent := Some (formatDate utcOffset today) |}
    (fun error =>
       match error with
       | Some e => cb error None
       | None => ret tt
       end).

(** Lines 21-63. *)
Definition pushNotificationIfNeeded (snowLevel : Q) : M bool :=
  now <- moment ;;
  when (snowRule utcOffset now snowLevel) (pushover_send (msg snowLevel)) ;;
  ret false.

(** [yesterdayEvening] and [todayMorning] of lines 85-86, from the clock
    readings they are built on, in a zone that keeps its offset
    ([yesterdayEveningIn] and [todayMorningIn] are the same two moments in a
    zone whose offset changes). *)
Definition yesterdayEvening (now : Z) : Z :=
  milliseconds utcOffset 0
    (seconds utcOffset 0
       (minutes utcOffset 0 (hours utcOffset 21 (subtractDays 1 now)))).

Definition todayMorning (now : Z) : Z :=
  seconds utcOffset 0 (minutes utcOffset 0 (hours utcOffset 22 now)).

(** Lines 69-116. *)
Definition getPrecipationData : M unit :=
  t1 <- moment ;;
  emit (LoadTime (startOfDay utcOffset (subtractDays 1 t1))) ;;
  t2 <- moment ;;
  emit (LoadTime (startOfDay utcOffset t2)) ;;
  match fetched w with
  | Fulfilled yesterday today =>
      t3 <- moment ;;
      t4 <- moment ;;
      let arr := snowArray (yesterdayEvening t3) (todayMorning t4) yesterday today in
      let total := snowTotal arr in
      when (2 <? DEBUG_LEVEL) (console_log "Snow levels: " (LogSamples arr)) ;;
      when (1 <? DEBUG_LEVEL) (console_log "Total snow level: " (LogNumber total)) ;;
      sent <- pushNotificationIfNeeded total ;;
      if sent
      then cb None (Some (WithNumber "Snow level is " total "cm, message has been sent!"))
      else cb None (Some (WithNumber "Snow level is " total "cm, no need to shovel!"))
  | Rejected err =>
      console_log "Error: " (LogError (Some err)) ;;
      cb (Some err) None
  end.

(** [module.exports] (lines 121-135).  [moment()] is read only when the
    stored record exists. *)
Definition module_exports : M unit :=
  storage_get (fun error data =>
    match error with
    | Some e => cb error None
    | None =>
        match data with
        | Some d =>
            today <- moment ;;
            if match lastMessageSent d with
               | Some day => day =? formatDate utcOffset today
               | None => false
               end
            then console_log "Message was already sent today, exiting." LogNothing ;;
                 cb None (Some (Literal "Message was already sent today!"))
            else getPrecipationData
        | None => getPrecipationData
        end
    end).

(** Pushover answers a send: its [onerror] reports, then the callback. *)
Definition pushover_completes (msg : PushoverMsg) : M unit :=
  forEach (pushover_onerror w) (fun error => cb (Some error) None) ;;
  send_callback (send_err w) (send_result w).

(** The callbacks that wait run once the synchronous code has returned. *)
Definition eventLoop : M unit :=
  fun st => forEach (inflight st) pushover_completes
              {| trace := trace st; storage := storage st;
                 reads := reads st; inflight := [] |}.

(** One invocation of the webtask. *)
Definition invoke : M unit := module_exports ;; eventLoop.

End Program.

(** A fresh invocation over a persisted record. *)
Definition initial (stored : option StorageData) : State :=
  {| trace := []; storage := stored; reads := 0; inflight := [] |}.

Definition run (utcOffset : Z) (w : World) (stored : option StorageData) : State :=
  snd (invoke utcOffset w (initial stored)).

(** ** What a run shows *)

Definition isSend (e : Event) : bool :=
  match e with PushoverSend _ => true | _ => false end.

Definition isStorageSet (e : Event) : bool :=
  match e with StorageSet _ => true | _ => false end.

Definition isLoadTime (e : Event) : bool :=
  match e with LoadTime _ => true | _ => false end.

Definition isCallback (e : Event) : bool :=
  match e with Callback _ _ => true | _ => false end.

(** A call of [cb] that reports success: no error, a result message. *)
Definition isSuccess (e : Event) : bool :=
  match e with Callback None (Some _) => true | _ => false end.

(** The events a computation adds to the trace of the state it starts in. *)
Definition newEvents {A : Type} (m : M A) (st : State) : list Event :=
  skipn (List.length (trace st)) (trace (snd (m st))).

(** The computation hands a message to Pushover. *)
Definition notificationSent {A : Type} (m : M A) (st : State) : bool :=
  existsb isSend (newEvents m st).

(** The stored record carries the given day as its marker. *)
Definition markerIs (stored : option StorageData) (day : Z) : bool :=
  match stored with
  | Some d =>
      match lastMessageSent d with
      | Some day' => day' =? day
      | None => false
      end
  | None => false
  end.

(** The [onerror] reports of Pushover, as calls of [cb]. *)
Definition onerrorCalls (w : World) : list Event :=
  map (fun error => Callback (Some error) None) (pushover_onerror w).

(** The events of the [send] callback (lines 49-60) when it reads the clock
    at [today]. *)
Definition sendCallbackEvents (off : Z) (w : World) (today : Z) : list Event :=
  match send_err w with
  | Some e =>
      [ConsoleLog "Cannot send pushover notification: " (LogError (Some e));
       Callback (Some e) None]
  | None => []
  end
  ++ [ConsoleLog "Sent pushover notification: " (LogResult (send_result w));
      StorageSet {| lastMessageSent := Some (formatDate off today) |}]
  ++ match storage_set_error w with
     | Some e => [Callback (Some e) None]
     | None => []
     end.

(** Clock readings the dedup gate takes: one when a record is stored. *)
Definition gateReads (stored : option StorageData) : nat :=
  match stored with Some _ => 1%nat | None => 0%nat end.

(** The total the aggregator computes from the answers [yesterday] and
    [today] when its first clock reading is the [r]-th. *)
Definition aggregated (off : Z) (w : World) (r : nat)
    (yesterday today : Forecast) : Q :=
  snowTotal (snowArray (yesterdayEvening off (clock w (2 + r)))
                       (todayMorning off (clock w (3 + r))) yesterday today).

(** The two results the success callback can carry. *)
Definition noNeedToShovel (total : Q) : Event :=
  Callback None (Some (WithNumber "Snow level is " total "cm, no need to shovel!")).

Definition messageHasBeenSent (total : Q) : Event :=
  Callback None (Some (WithNumber "Snow level is " total "cm, message has been sent!")).

(** The sum of the accumulation values of a list of samples. *)
Fixpoint sumSnow (l : list Sample) : Q :=
  match l with
  | [] => 0%Q
  | x :: l' => (snow x + sumSnow l')%Q
  end.

(** The overnight window as the specification words it: yesterday 21:00
    included, today 22:00 excluded, both on the local day of [now]. *)
Definition specWindow (utcOffset now t : Z) : bool :=
  (startOfDay utcOffset now - MS_PER_DAY + 21 * MS_PER_HOUR <=? t)
  && (t <? startOfDay utcOffset now + 22 * MS_PER_HOUR).

(** Eastern Standard Time, and the instant 2019-01-15 00:00:00.000 EST. *)
Definition EST : Z := -18000000.
Definition midnight : Z := 1547528400000.

(** Eastern Daylight Time, and America/Toronto from November 2018 to March
    2020: daylight time from 2019-03-10 07:00 UTC to 2019-11-03 06:00 UTC. *)
Definition EDT : Z := -14400000.

Definition toronto2019 (u : Z) : Z :=
  if u <? 1552201200000 then EST
  else if u <? 1572760800000 then EDT
  else EST.

(** 2019-03-10 07:00:00.250 EDT, five hours after the clocks went forward. *)
Definition springForwardMorning : Z := 1552215600250.

(** That weekend's answers: entries at 03-09 21:00 EST and 22:00 EST, and at
    03-10 21:00 EDT and 22:00 EDT. *)
Definition springYesterday : Forecast :=
  {| hourly_data :=
       [ {| time := 1552183200; precipAccumulation := Some 4%Q |};
         {| time := 1552186800; precipAccumulation := Some (1 # 2) |} ] |}.

Definition springToday : Forecast :=
  {| hourly_data :=
       [ {| time := 1552266000; precipAccumulation := None |};
         {| time := 1552269600; precipAccumulation := Some (1 # 4) |} ] |}.

(** A world whose clock stands still at [now] and whose collaborators all
    succeed. *)
Definition calmWorld (now : Z) (yesterday today : Forecast) : World :=
  {| clock := fun _ => now;
     storage_get_error := None;
     fetched := Fulfilled yesterday today;
     pushover_onerror := [];
     send_err := None;
     send_result := Some "{status:1}"%string;
     storage_set_error := None |}.

Definition noData : Forecast := {| hourly_data := [] |}.

(** Thirty centimetres at 23:00 the evening before, then an hour without a
    reading. *)
Definition snowyNight : Forecast :=
  {| hourly_data :=
       [ {| time := 1547524800; precipAccumulation := Some 30%Q |};
         {| time := 1547528400; precipAccumulation := None |} ] |}.

(** 07:00 after the snowy night; the send to Pushover fails. *)
Definition sendFails : World :=
  {| clock := fun _ => midnight + 7 * MS_PER_HOUR;
     storage_get_error := None;
     fetched := Fulfilled snowyNight noData;
     pushover_onerror := [];
     send_err := Some "ECONNRESET"%string;
     send_result := None;
     storage_set_error := None |}.

(** ** Time arithmetic *)

Ltac unfold_time :=
  unfold time0500, time0600, time0630, hours, minutes, seconds, milliseconds,
    subtractDays, startOfDay, hourOf, minuteOf, secondOf, millisecondOf,
    timeOfDay, localMs, MS_PER_DAY, MS_PER_HOUR, MS_PER_MINUTE, MS_PER_SECOND in *.

Ltac time_arith := unfold_time; Z.div_mod_to_equations; lia.

Lemma timeOfDay_range off m : 0 <= timeOfDay off m < MS_PER_DAY.
Proof. time_arith. Qed.

Lemma hours_eq off h m :
  hours off h m = startOfDay off m + h * MS_PER_HOUR + localMs off m mod MS_PER_HOUR.
Proof. time_arith. Qed.

Lemma time0500_eq off now : time0500 off now = startOfDay off now + 5 * MS_PER_HOUR.
Proof. time_arith. Qed.

Lemma time0600_eq off now : time0600 off now = startOfDay off now + 6 * MS_PER_HOUR.
Proof. unfold time0600. rewrite time0500_eq. time_arith. Qed.

Lemma time0630_eq off now :
  time0630 off now = startOfDay off now + 6 * MS_PER_HOUR + 30 * MS_PER_MINUTE.
Proof. unfold time0630. rewrite time0600_eq. time_arith. Qed.

Lemma yesterdayEvening_eq off now :
  yesterdayEvening off now = startOfDay off now - MS_PER_DAY + 21 * MS_PER_HOUR.
Proof. unfold yesterdayEvening. rewrite hours_eq. time_arith. Qed.

Lemma todayMorning_eq off now :
  todayMorning off now = startOfDay off now + 22 * MS_PER_HOUR + millisecondOf off now.
Proof. unfold todayMorning. rewrite hours_eq. time_arith. Qed.

(** The three time tests read the time of day. *)
Lemma isAfter_time0500 off now :
  isAfter now (time0500 off now) = (5 * MS_PER_HOUR <? timeOfDay off now).
Proof.
  rewrite time0500_eq. unfold isAfter, startOfDay.
  apply Bool.eq_true_iff_eq. rewrite !Z.ltb_lt. lia.
Qed.

Lemma isAfter_time0600 off now :
  isAfter now (time0600 off now) = (6 * MS_PER_HOUR <? timeOfDay off now).
Proof.
  rewrite time0600_eq. unfold isAfter, startOfDay.
  apply Bool.eq_true_iff_eq. rewrite !Z.ltb_lt. lia.
Qed.

Lemma isAfter_time0630 off now :
  isAfter now (time0630 off now)
  = (6 * MS_PER_HOUR + 30 * MS_PER_MINUTE <? timeOfDay off now).
Proof.
  rewrite time0630_eq. unfold isAfter, startOfDay.
  apply Bool.eq_true_iff_eq. rewrite !Z.ltb_lt. lia.
Qed.

(** ** Comparing snow levels *)

Lemma num_gt_true a b : num_gt a b = true <-> (b < a)%Q.
Proof.
  unfold num_gt. rewrite negb_true_iff, <- not_true_iff_false, Qle_bool_iff.
  split; [apply Qnot_le_lt | apply Qlt_not_le].
Qed.

Lemma num_gt_false a b : num_gt a b = false <-> (a <= b)%Q.
Proof. unfold num_gt. now rewrite negb_false_iff, Qle_bool_iff. Qed.

Lemma num_gt_mono a a' b : num_gt a b = true -> (a <= a')%Q -> num_gt a' b = true.
Proof.
  rewrite !num_gt_true. intros Hlt Hle. exact (Qlt_le_trans _ _ _ Hlt Hle).
Qed.

Lemma snowRule_eq off now s :
  snowRule off now s
  = (((5 * MS_PER_HOUR <? timeOfDay off now) && num_gt s MINIMUM_SNOW_0500)
     || ((6 * MS_PER_HOUR <? timeOfDay off now) && num_gt s MINIMUM_SNOW_0600)
     || ((6 * MS_PER_HOUR + 30 * MS_PER_MINUTE <? timeOfDay off now)
         && num_gt s MINIMUM_SNOW_0630)).
Proof.
  unfold snowRule.
  now rewrite isAfter_time0500, isAfter_time0600, isAfter_time0630.
Qed.

(** ** The notifier *)

Lemma skipn_length_app {A : Type} (l l' : list A) :
  skipn (List.length l) (l ++ l') = l'.
Proof. induction l as [|x l IH]; simpl; auto. Qed.

Lemma skipn_length {A : Type} (l : list A) : skipn (List.length l) l = [].
Proof. induction l as [|x l IH]; simpl; auto. Qed.

(** What one call of [pushNotificationIfNeeded] does: it reads the clock,
    starts a send when the rule holds, and returns [false]. *)
Lemma pushNotificationIfNeeded_eq off w s st :
  pushNotificationIfNeeded off w s st
  = (false,
     if snowRule off (clock w (reads st)) s
     then {| trace := trace st ++ [PushoverSend (msg s)]; storage := storage st;
             reads := S (reads st); inflight := inflight st ++ [msg s] |}
     else {| trace := trace st; storage := storage st;
             reads := S (reads st); inflight := inflight st |}).
Proof.
  unfold pushNotificationIfNeeded, bind, moment, when, pushover_send, emit, ret.
  simpl. destruct (snowRule off (clock w (reads st)) s); reflexivity.
Qed.

Lemma notificationSent_rule off w s st :
  notificationSent (pushNotificationIfNeeded off w s) st
  = snowRule off (clock w (reads st)) s.
Proof.
  unfold notificationSent, newEvents. rewrite pushNotificationIfNeeded_eq.
  destruct (snowRule off (clock w (reads st)) s); simpl.
  - now rewrite skipn_length_app.
  - now rewrite skipn_length.
Qed.

(** C1 (as stated, refuted): at 05:00:00.000 sharp, with 41 cm, nothing is
    sent, because [isAfter] is strict. *)
Lemma notifier_at_0500_sharp_41cm :
  timeOfDay EST (midnight + 5 * MS_PER_HOUR) = 5 * MS_PER_HOUR
  /\ notificationSent
       (pushNotificationIfNeeded EST
          (calmWorld (midnight + 5 * MS_PER_HOUR) noData noData) 41%Q)
       (initial None) = false.
Proof. split; vm_compute; reflexivity. Qed.

(** C1 (amended): from 05:00 to 06:00 local time, a total of 41 cm is
    notified exactly when the time is strictly after 05:00:00.000, and a total
    of 40 cm is never notified: both comparisons are strict. *)
Theorem notifier_0500_rule off w st :
  5 * MS_PER_HOUR <= timeOfDay off (clock w (reads st)) <= 6 * MS_PER_HOUR ->
  notificationSent (pushNotificationIfNeeded off w 41%Q) st
  = (5 * MS_PER_HOUR <? timeOfDay off (clock w (reads st)))
  /\ notificationSent (pushNotificationIfNeeded off w 40%Q) st = false.
Proof.
  intros [Hlo Hhi]. rewrite !notificationSent_rule, !snowRule_eq.
  assert (H6 : (6 * MS_PER_HOUR <? timeOfDay off (clock w (reads st))) = false)
    by (apply Z.ltb_ge; exact Hhi).
  assert (H63 : (6 * MS_PER_HOUR + 30 * MS_PER_MINUTE
                 <? timeOfDay off (clock w (reads st))) = false)
    by (apply Z.ltb_ge; unfold MS_PER_MINUTE in *; lia).
  rewrite H6, H63. simpl.
  change (num_gt 41%Q MINIMUM_SNOW_0500) with true.
  change (num_gt 40%Q MINIMUM_SNOW_0500) with false.
  now rewrite !orb_false_r, andb_true_r, andb_false_r.
Qed.

Lemma notifier_0500_rule_witness :
  notificationSent
    (pushNotificationIfNeeded EST
       (calmWorld (midnight + 5 * MS_PER_HOUR + 1) noData noData) 41%Q)
    (initial None) = true
  /\ notificationSent
       (pushNotificationIfNeeded EST
          (calmWorld (midnight + 5 * MS_PER_HOUR + 1) noData noData) 40%Q)
       (initial None) = false.
Proof.
  apply (notifier_0500_rule EST
           (calmWorld (midnight + 5 * MS_PER_HOUR + 1) noData noData)
           (initial None)).
  vm_compute. split; discriminate.
Defined.

(** C5: a total of at most 5 cm is never notified, whatever the time. *)
Theorem no_notification_up_to_5cm off w st s :
  (s <= 5)%Q ->
  notificationSent (pushNotificationIfNeeded off w s) st = false.
Proof.
  intros Hs. rewrite notificationSent_rule, snowRule_eq.
  assert (H5 : num_gt s MINIMUM_SNOW_0630 = false) by (apply num_gt_false; exact Hs).
  assert (H20 : num_gt s MINIMUM_SNOW_0600 = false).
  { apply num_gt_false. apply Qle_trans with 5%Q; [exact Hs | discriminate]. }
  assert (H40 : num_gt s MINIMUM_SNOW_0500 = false).
  { apply num_gt_false. apply Qle_trans with 5%Q; [exact Hs | discriminate]. }
  rewrite H5, H20, H40. now rewrite !andb_false_r.
Qed.

Lemma no_notification_up_to_5cm_witness :
  notificationSent
    (pushNotificationIfNeeded EST
       (calmWorld (midnight + 7 * MS_PER_HOUR) noData noData) 5%Q)
    (initial None) = false.
Proof.
  apply (no_notification_up_to_5cm EST
           (calmWorld (midnight + 7 * MS_PER_HOUR) noData noData)
           (initial None) 5%Q).
  vm_compute. discriminate.
Defined.

(** C7: at 06:15 local time (any instant of that minute) 21 cm is notified,
    by the 06:00 rule with its 20 cm, and 6 cm is not. *)
Theorem notifier_at_0615 off w st :
  6 * MS_PER_HOUR + 15 * MS_PER_MINUTE <= timeOfDay off (clock w (reads st))
    < 6 * MS_PER_HOUR + 16 * MS_PER_MINUTE ->
  (isAfter (clock w (reads st)) (time0600 off (clock w (reads st)))
   && num_gt 21%Q MINIMUM_SNOW_0600 = true)
  /\ notificationSent (pushNotificationIfNeeded off w 21%Q) st = true
  /\ notificationSent (pushNotificationIfNeeded off w 6%Q) st = false.
Proof.
  intros Ht. rewrite !notificationSent_rule, !snowRule_eq, isAfter_time0600.
  assert (H5 : (5 * MS_PER_HOUR <? timeOfDay off (clock w (reads st))) = true)
    by (apply Z.ltb_lt; unfold MS_PER_HOUR, MS_PER_MINUTE in *; lia).
  assert (H6 : (6 * MS_PER_HOUR <? timeOfDay off (clock w (reads st))) = true)
    by (apply Z.ltb_lt; unfold MS_PER_HOUR, MS_PER_MINUTE in *; lia).
  assert (H63 : (6 * MS_PER_HOUR + 30 * MS_PER_MINUTE
                 <? timeOfDay off (clock w (reads st))) = false)
    by (apply Z.ltb_ge; unfold MS_PER_HOUR, MS_PER_MINUTE in *; lia).
  rewrite H5, H6, H63. repeat split.
Qed.

Lemma notifier_at_0615_witness :
  notificationSent
    (pushNotificationIfNeeded EST
       (calmWorld (midnight + 6 * MS_PER_HOUR + 15 * MS_PER_MINUTE) noData noData)
       21%Q)
    (initial None) = true
  /\ notificationSent
       (pushNotificationIfNeeded EST
          (calmWorld (midnight + 6 * MS_PER_HOUR + 15 * MS_PER_MINUTE) noData noData)
          6%Q)
       (initial None) = false.
Proof.
  apply (notifier_at_0615 EST
           (calmWorld (midnight + 6 * MS_PER_HOUR + 15 * MS_PER_MINUTE) noData noData)
           (initial None)).
  vm_compute. split; [discriminate | reflexivity].
Defined.

(** C10: the decision to send is monotone in the snow total, the three time
    tests are nested, and after 06:30 the decision is [snowLevel > 5]. *)
Theorem send_decision_monotone off w st :
  (forall s s' : Q,
      notificationSent (pushNotificationIfNeeded off w s) st = true ->
      (s <= s')%Q ->
      notificationSent (pushNotificationIfNeeded off w s') st = true)
  /\ (isAfter (clock w (reads st)) (time0630 off (clock w (reads st))) = true ->
      isAfter (clock w (reads st)) (time0600 off (clock w (reads st))) = true
      /\ isAfter (clock w (reads st)) (time0500 off (clock w (reads st))) = true)
  /\ (isAfter (clock w (reads st)) (time0630 off (clock w (reads st))) = true ->
      forall s : Q,
        notificationSent (pushNotificationIfNeeded off w s) st
        = num_gt s MINIMUM_SNOW_0630).
Proof.
  set (now := clock w (reads st)).
  assert (Hnest : isAfter now (time0630 off now) = true ->
                  isAfter now (time0600 off now) = true
                  /\ isAfter now (time0500 off now) = true).
  { rewrite isAfter_time0630, isAfter_time0600, isAfter_time0500, !Z.ltb_lt.
    unfold MS_PER_HOUR, MS_PER_MINUTE. lia. }
  split; [|split].
  - intros s s'. rewrite !notificationSent_rule. fold now. unfold snowRule.
    rewrite !orb_true_iff, !andb_true_iff.
    intros [[[Ht Hs]|[Ht Hs]]|[Ht Hs]] Hle;
      [left; left | left; right | right];
      (split; [exact Ht | exact (num_gt_mono _ _ _ Hs Hle)]).
  - exact Hnest.
  - intros H630 s. destruct (Hnest H630) as [H600 H500].
    rewrite notificationSent_rule. fold now. unfold snowRule.
    rewrite H500, H600, H630. simpl.
    destruct (num_gt s MINIMUM_SNOW_0630) eqn:H5.
    + now rewrite !orb_true_r.
    + apply num_gt_false in H5.
      assert (H20 : num_gt s MINIMUM_SNOW_0600 = false).
      { apply num_gt_false. apply Qle_trans with MINIMUM_SNOW_0630;
          [exact H5 | discriminate]. }
      assert (H40 : num_gt s MINIMUM_SNOW_0500 = false).
      { apply num_gt_false. apply Qle_trans with MINIMUM_SNOW_0630;
          [exact H5 | discriminate]. }
      now rewrite H20, H40.
Qed.

Lemma send_decision_monotone_witness :
  notificationSent
    (pushNotificationIfNeeded EST
       (calmWorld (midnight + 6 * MS_PER_HOUR + 15 * MS_PER_MINUTE) noData noData)
       (45 # 2))
    (initial None) = true
  /\ notificationSent
       (pushNotificationIfNeeded EST
          (calmWorld (midnight + 7 * MS_PER_HOUR) noData noData) (11 # 2))
       (initial None) = true.
Proof.
  split.
  - apply (proj1 (send_decision_monotone EST
             (calmWorld (midnight + 6 * MS_PER_HOUR + 15 * MS_PER_MINUTE)
                        noData noData)
             (initial None)) 21%Q (45 # 2)).
    + vm_compute. reflexivity.
    + vm_compute. discriminate.
  - rewrite (proj2 (proj2 (send_decision_monotone EST
               (calmWorld (midnight + 7 * MS_PER_HOUR) noData noData)
               (initial None)))).
    + vm_compute. reflexivity.
    + vm_compute. reflexivity.
Defined.

(** C6: when no rule matches, the call only reads the clock: no event is
    added to the trace (no send, no write), the persisted record is the same,
    and no callback is left waiting. *)
Theorem no_rule_no_effect off w st s :
  snowRule off (clock w (reads st)) s = false ->
  pushNotificationIfNeeded off w s st
  = (false, {| trace := trace st; storage := storage st;
               reads := S (reads st); inflight := inflight st |})
  /\ notificationSent (pushNotificationIfNeeded off w s) st = false
  /\ existsb isStorageSet (newEvents (pushNotificationIfNeeded off w s) st) = false
  /\ storage (snd (pushNotificationIfNeeded off w s st)) = storage st.
Proof.
  intros Hrule. rewrite notificationSent_rule. unfold newEvents.
  rewrite pushNotificationIfNeeded_eq, Hrule. simpl.
  rewrite skipn_length. repeat split.
Qed.

Lemma no_rule_no_effect_witness :
  pushNotificationIfNeeded EST
    (calmWorld (midnight + 6 * MS_PER_HOUR + 15 * MS_PER_MINUTE) noData noData)
    6%Q (initial None)
  = (false, {| trace := []; storage := None; reads := 1; inflight := [] |}).
Proof.
  apply (no_rule_no_effect EST
           (calmWorld (midnight + 6 * MS_PER_HOUR + 15 * MS_PER_MINUTE) noData noData)
           (initial None) 6%Q).
  vm_compute. reflexivity.
Defined.

(** ** One invocation, step by step *)

Lemma forEach_onerror l tr sto r infl :
  forEach l (fun error => cb (Some error) None)
    {| trace := tr; storage := sto; reads := r; inflight := infl |}
  = (tt, {| trace := tr ++ map (fun error => Callback (Some error) None) l;
            storage := sto; reads := r; inflight := infl |}).
Proof.
  revert tr. induction l as [|e l IH]; intros tr; simpl.
  - now rewrite app_nil_r.
  - unfold bind, cb, emit. simpl. rewrite IH. now rewrite <- app_assoc.
Qed.

Lemma send_callback_eq off w tr sto r infl :
  send_callback off w (send_err w) (send_result w)
    {| trace := tr; storage := sto; reads := r; inflight := infl |}
  = (tt, {| trace := tr ++ sendCallbackEvents off w (clock w r);
            storage := match storage_set_error w with
                       | Some _ => sto
                       | None => Some {| lastMessageSent :=
                                           Some (formatDate off (clock w r)) |}
                       end;
            reads := S r; inflight := infl |}).
Proof.
  unfold send_callback, sendCallbackEvents, storage_set, bind, moment,
    console_log, cb, emit, ret.
  destruct (send_err w), (storage_set_error w); simpl;
    repeat rewrite <- app_assoc; reflexivity.
Qed.

Lemma pushover_completes_eq off w m tr sto r infl :
  pushover_completes off w m
    {| trace := tr; storage := sto; reads := r; inflight := infl |}
  = (tt, {| trace := tr ++ onerrorCalls w ++ sendCallbackEvents off w (clock w r);
            storage := match storage_set_error w with
                       | Some _ => sto
                       | None => Some {| lastMessageSent :=
                                           Some (formatDate off (clock w r)) |}
                       end;
            reads := S r; inflight := infl |}).
Proof.
  unfold pushover_completes, bind. rewrite forEach_onerror, send_callback_eq.
  now rewrite app_assoc.
Qed.

Lemma getPrecipationData_fulfilled off w y t tr sto r infl :
  fetched w = Fulfilled y t ->
  getPrecipationData off w
    {| trace := tr; storage := sto; reads := r; inflight := infl |}
  = (tt,
     {| trace :=
          tr ++ [LoadTime (startOfDay off (subtractDays 1 (clock w r)));
                 LoadTime (startOfDay off (clock w (1 + r)))]
             ++ (if snowRule off (clock w (4 + r)) (aggregated off w r y t)
                 then [PushoverSend (msg (aggregated off w r y t))]
                 else [])
             ++ [noNeedToShovel (aggregated off w r y t)];
        storage := sto;
        reads := 5 + r;
        inflight :=
          infl ++ (if snowRule off (clock w (4 + r)) (aggregated off w r y t)
                   then [msg (aggregated off w r y t)]
                   else []) |}).
Proof.
  intros Hf. unfold getPrecipationData, bind, moment, emit. simpl. rewrite Hf.
  unfold bind. simpl. rewrite pushNotificationIfNeeded_eq.
  unfold aggregated, noNeedToShovel, cb, emit. simpl.
  destruct (snowRule _ _ _); simpl; repeat rewrite <- app_assoc;
    rewrite ?app_nil_r; reflexivity.
Qed.

Lemma getPrecipationData_rejected off w err tr sto r infl :
  fetched w = Rejected err ->
  getPrecipationData off w
    {| trace := tr; storage := sto; reads := r; inflight := infl |}
  = (tt,
     {| trace :=
          tr ++ [LoadTime (startOfDay off (subtractDays 1 (clock w r)));
                 LoadTime (startOfDay off (clock w (1 + r)));
                 ConsoleLog "Error: " (LogError (Some err));
                 Callback (Some err) None];
        storage := sto; reads := 2 + r; inflight := infl |}).
Proof.
  intros Hf. unfold getPrecipationData, bind, moment, emit, console_log, cb, emit.
  simpl. rewrite Hf. unfold bind. simpl.
  repeat rewrite <- app_assoc. reflexivity.
Qed.

(** The dedup gate: what [module.exports] does before it fetches. *)
Lemma module_exports_read_error off w stored e :
  storage_get_error w = Some e ->
  module_exports off w (initial stored)
  = (tt, {| trace := [StorageGet; Callback (Some e) None]; storage := stored;
            reads := 0; inflight := [] |}).
Proof.
  intros He. unfold module_exports, storage_get, bind, emit, cb, emit.
  simpl. rewrite He. reflexivity.
Qed.

Lemma module_exports_already_sent off w stored :
  storage_get_error w = None ->
  markerIs stored (formatDate off (clock w 0)) = true ->
  module_exports off w (initial stored)
  = (tt, {| trace := [StorageGet;
                      ConsoleLog "Message was already sent today, exiting." LogNothing;
                      Callback None (Some (Literal "Message was already sent today!"))];
            storage := stored; reads := 1; inflight := [] |}).
Proof.
  intros He Hm. unfold module_exports, storage_get, bind, emit. simpl. rewrite He.
  destruct stored as [[[day|]]|]; simpl in Hm; try discriminate.
  unfold bind, moment, console_log, cb, emit. simpl. rewrite Hm. reflexivity.
Qed.

Lemma module_exports_proceeds off w stored :
  storage_get_error w = None ->
  markerIs stored (formatDate off (clock w 0)) = false ->
  module_exports off w (initial stored)
  = getPrecipationData off w
      {| trace := [StorageGet]; storage := stored; reads := gateReads stored;
         inflight := [] |}.
Proof.
  intros He Hm. unfold module_exports, storage_get, bind, emit. simpl. rewrite He.
  destruct stored as [[[day|]]|]; simpl in Hm; simpl; try reflexivity.
  unfold bind, moment. simpl. rewrite Hm. reflexivity.
Qed.

(** The whole invocation, case by case. *)
Lemma run_read_error off w stored e :
  storage_get_error w = Some e ->
  run off w stored
  = {| trace := [StorageGet; Callback (Some e) None]; storage := stored;
       reads := 0; inflight := [] |}.
Proof.
  intros He. unfold run, invoke, bind.
  rewrite (module_exports_read_error off w stored e He). reflexivity.
Qed.

Lemma run_already_sent off w stored :
  storage_get_error w = None ->
  markerIs stored (formatDate off (clock w 0)) = true ->
  run off w stored
  = {| trace := [StorageGet;
                 ConsoleLog "Message was already sent today, exiting." LogNothing;
                 Callback None (Some (Literal "Message was already sent today!"))];
       storage := stored; reads := 1; inflight := [] |}.
Proof.
  intros He Hm. unfold run, invoke, bind.
  rewrite (module_exports_already_sent off w stored He Hm). reflexivity.
Qed.

Lemma run_rejected off w stored err :
  storage_get_error w = None ->
  markerIs stored (formatDate off (clock w 0)) = false ->
  fetched w = Rejected err ->
  run off w stored
  = {| trace := [StorageGet;
                 LoadTime (startOfDay off (subtractDays 1 (clock w (gateReads stored))));
                 LoadTime (startOfDay off (clock w (1 + gateReads stored)));
                 ConsoleLog "Error: " (LogError (Some err));
                 Callback (Some err) None];
       storage := stored; reads := 2 + gateReads stored; inflight := [] |}.
Proof.
  intros He Hm Hf. unfold run, invoke, bind.
  rewrite (module_exports_proceeds off w stored He Hm).
  rewrite (getPrecipationData_rejected off w err _ _ _ _ Hf). reflexivity.
Qed.

Lemma run_no_rule off w stored y t :
  storage_get_error w = None ->
  markerIs stored (formatDate off (clock w 0)) = false ->
  fetched w = Fulfilled y t ->
  snowRule off (clock w (4 + gateReads stored))
           (aggregated off w (gateReads stored) y t) = false ->
  run off w stored
  = {| trace := [StorageGet;
                 LoadTime (startOfDay off (subtractDays 1 (clock w (gateReads stored))));
                 LoadTime (startOfDay off (clock w (1 + gateReads stored)));
                 noNeedToShovel (aggregated off w (gateReads stored) y t)];
       storage := stored; reads := 5 + gateReads stored; inflight := [] |}.
Proof.
  intros He Hm Hf Hr. unfold run, invoke, bind.
  rewrite (module_exports_proceeds off w stored He Hm).
  rewrite (getPrecipationData_fulfilled off w y t _ _ _ _ Hf), Hr. reflexivity.
Qed.

Lemma run_rule off w stored y t :
  storage_get_error w = None ->
  markerIs stored (formatDate off (clock w 0)) = false ->
  fetched w = Fulfilled y t ->
  snowRule off (clock w (4 + gateReads stored))
           (aggregated off w (gateReads stored) y t) = true ->
  run off w stored
  = {| trace := [StorageGet;
                 LoadTime (startOfDay off (subtractDays 1 (clock w (gateReads stored))));
                 LoadTime (startOfDay off (clock w (1 + gateReads stored)));
                 PushoverSend (msg (aggregated off w (gateReads stored) y t));
                 noNeedToShovel (aggregated off w (gateReads stored) y t)]
                ++ onerrorCalls w
                ++ sendCallbackEvents off w (clock w (5 + gateReads stored));
       storage := match storage_set_error w with
                  | Some _ => stored
                  | None =>
                      Some {| lastMessageSent :=
                                Some (formatDate off (clock w (5 + gateReads stored))) |}
                  end;
       reads := 6 + gateReads stored; inflight := [] |}.
Proof.
  intros He Hm Hf Hr. unfold run, invoke, bind.
  rewrite (module_exports_proceeds off w stored He Hm).
  rewrite (getPrecipationData_fulfilled off w y t _ _ _ _ Hf), Hr.
  unfold eventLoop. cbn [inflight trace storage reads app forEach].
  unfold bind. rewrite pushover_completes_eq. reflexivity.
Qed.

(** ** The dedup gate *)

(** C4: a read error goes to the caller and ends the run; with the marker at
    today's date the run ends with the already-sent result and no call to the
    weather provider; otherwise the two provider calls are made. *)
Theorem dedup_gate off w stored :
  (forall e, storage_get_error w = Some e ->
     trace (run off w stored) = [StorageGet; Callback (Some e) None])
  /\ (storage_get_error w = None ->
      markerIs stored (formatDate off (clock w 0)) = true ->
      trace (run off w stored)
      = [StorageGet;
         ConsoleLog "Message was already sent today, exiting." LogNothing;
         Callback None (Some (Literal "Message was already sent today!"))]
      /\ existsb isLoadTime (trace (run off w stored)) = false)
  /\ (storage_get_error w = None ->
      markerIs stored (formatDate off (clock w 0)) = false ->
      exists rest,
        trace (run off w stored)
        = StorageGet
            :: LoadTime (startOfDay off
                           (subtractDays 1 (clock w (gateReads stored))))
            :: LoadTime (startOfDay off (clock w (1 + gateReads stored)))
            :: rest).
Proof.
  split; [|split].
  - intros e He. now rewrite (run_read_error off w stored e He).
  - intros He Hm. rewrite (run_already_sent off w stored He Hm). split; reflexivity.
  - intros He Hm. destruct (fetched w) as [y t|err] eqn:Hf.
    + destruct (snowRule off (clock w (4 + gateReads stored))
                         (aggregated off w (gateReads stored) y t)) eqn:Hr.
      * rewrite (run_rule off w stored y t He Hm Hf Hr). simpl. eauto.
      * rewrite (run_no_rule off w stored y t He Hm Hf Hr). simpl. eauto.
    + rewrite (run_rejected off w stored err He Hm Hf). simpl. eauto.
Qed.

Lemma dedup_gate_witness :
  trace (run EST (calmWorld (midnight + 7 * MS_PER_HOUR) snowyNight noData)
             (Some {| lastMessageSent := Some 17911 |}))
  = [StorageGet;
     ConsoleLog "Message was already sent today, exiting." LogNothing;
     Callback None (Some (Literal "Message was already sent today!"))]
  /\ existsb isLoadTime
       (trace (run EST (calmWorld (midnight + 7 * MS_PER_HOUR) snowyNight noData)
                   (Some {| lastMessageSent := Some 17911 |}))) = false.
Proof.
  apply (proj1 (proj2 (dedup_gate EST
           (calmWorld (midnight + 7 * MS_PER_HOUR) snowyNight noData)
           (Some {| lastMessageSent := Some 17911 |})))).
  - reflexivity.
  - vm_compute. reflexivity.
Defined.

(** ** The callback of the invocation *)

Lemma filter_isSuccess_onerrorCalls w : filter isSuccess (onerrorCalls w) = [].
Proof.
  unfold onerrorCalls. induction (pushover_onerror w) as [|e l IH]; simpl; auto.
Qed.

Lemma filter_isSuccess_sendCallbackEvents off w today :
  filter isSuccess (sendCallbackEvents off w today) = [].
Proof.
  unfold sendCallbackEvents.
  destruct (send_err w), (storage_set_error w); reflexivity.
Qed.

(** C8: [pushNotificationIfNeeded] returns [false] on every call, so once the
    gate is passed and both provider calls have succeeded, the one success
    result handed to the callback is the no-need-to-shovel message, also when
    a rule matched and a send was started. *)
Theorem success_result_is_no_need off w stored y t :
  storage_get_error w = None ->
  markerIs stored (formatDate off (clock w 0)) = false ->
  fetched w = Fulfilled y t ->
  (forall s st, fst (pushNotificationIfNeeded off w s st) = false)
  /\ filter isSuccess (trace (run off w stored))
     = [noNeedToShovel (aggregated off w (gateReads stored) y t)]
  /\ (forall n, ~ In (messageHasBeenSent n) (trace (run off w stored)))
  /\ (snowRule off (clock w (4 + gateReads stored))
               (aggregated off w (gateReads stored) y t) = true ->
      In (PushoverSend (msg (aggregated off w (gateReads stored) y t)))
         (trace (run off w stored))).
Proof.
  intros He Hm Hf.
  assert (Hsucc : filter isSuccess (trace (run off w stored))
                  = [noNeedToShovel (aggregated off w (gateReads stored) y t)]).
  { destruct (snowRule off (clock w (4 + gateReads stored))
                       (aggregated off w (gateReads stored) y t)) eqn:Hr.
    - rewrite (run_rule off w stored y t He Hm Hf Hr).
      cbn [trace]. simpl.
      now rewrite filter_app, filter_isSuccess_onerrorCalls,
        filter_isSuccess_sendCallbackEvents.
    - rewrite (run_no_rule off w stored y t He Hm Hf Hr). reflexivity. }
  split; [|split; [|split]].
  - intros s st. now rewrite pushNotificationIfNeeded_eq.
  - exact Hsucc.
  - intros n Hin.
    assert (Hin' : In (messageHasBeenSent n)
                      (filter isSuccess (trace (run off w stored))))
      by (apply filter_In; split; [exact Hin | reflexivity]).
    rewrite Hsucc in Hin'. destruct Hin' as [Heq|[]]. discriminate Heq.
  - intros Hr. rewrite (run_rule off w stored y t He Hm Hf Hr).
    cbn [trace]. simpl. auto.
Qed.

Lemma success_result_is_no_need_witness :
  filter isSuccess
    (trace (run EST (calmWorld (midnight + 7 * MS_PER_HOUR) snowyNight noData) None))
  = [noNeedToShovel
       (aggregated EST (calmWorld (midnight + 7 * MS_PER_HOUR) snowyNight noData)
                   0 snowyNight noData)]
  /\ In (PushoverSend
           (msg (aggregated EST
                   (calmWorld (midnight + 7 * MS_PER_HOUR) snowyNight noData)
                   0 snowyNight noData)))
        (trace (run EST (calmWorld (midnight + 7 * MS_PER_HOUR) snowyNight noData)
                    None)).
Proof.
  destruct (success_result_is_no_need EST
              (calmWorld (midnight + 7 * MS_PER_HOUR) snowyNight noData) None
              snowyNight noData eq_refl eq_refl eq_refl) as (_ & Hs & _ & Hsend).
  split.
  - exact Hs.
  - apply Hsend. vm_compute. reflexivity.
Defined.

Lemma count_callbacks_sendCallbackEvents off w today :
  send_err w <> None \/ storage_set_error w <> None ->
  (1 <= List.length (filter isCallback (sendCallbackEvents off w today)))%nat.
Proof.
  unfold sendCallbackEvents.
  destruct (send_err w), (storage_set_error w); simpl; intros [H|H];
    try lia; contradiction H; reflexivity.
Qed.

(** C9: when a rule matches, the success callback is called right after the
    send has been started, before anything of the send's completion; the
    completion then calls the callback again with the send error, with the
    error of the marker write, or with both. *)
Theorem callback_invoked_again off w stored y t :
  storage_get_error w = None ->
  markerIs stored (formatDate off (clock w 0)) = false ->
  fetched w = Fulfilled y t ->
  snowRule off (clock w (4 + gateReads stored))
           (aggregated off w (gateReads stored) y t) = true ->
  trace (run off w stored)
  = [StorageGet;
     LoadTime (startOfDay off (subtractDays 1 (clock w (gateReads stored))));
     LoadTime (startOfDay off (clock w (1 + gateReads stored)));
     PushoverSend (msg (aggregated off w (gateReads stored) y t));
     noNeedToShovel (aggregated off w (gateReads stored) y t)]
    ++ onerrorCalls w
    ++ sendCallbackEvents off w (clock w (5 + gateReads stored))
  /\ (forall e, send_err w = Some e ->
        In (Callback (Some e) None)
           (sendCallbackEvents off w (clock w (5 + gateReads stored))))
  /\ (forall e, storage_set_error w = Some e ->
        In (Callback (Some e) None)
           (sendCallbackEvents off w (clock w (5 + gateReads stored))))
  /\ (send_err w <> None \/ storage_set_error w <> None ->
      (2 <= List.length (filter isCallback (trace (run off w stored))))%nat).
Proof.
  intros He Hm Hf Hr. rewrite (run_rule off w stored y t He Hm Hf Hr).
  cbn [trace]. split; [reflexivity|]. split; [|split].
  - intros e Hs. unfold sendCallbackEvents. rewrite Hs. simpl. auto.
  - intros e Hs. unfold sendCallbackEvents. rewrite Hs.
    apply in_or_app. right. simpl. auto.
  - intros Herr.
    pose proof (count_callbacks_sendCallbackEvents off w
                  (clock w (5 + gateReads stored)) Herr) as Hlate.
    set (late := sendCallbackEvents off w (clock w (5 + gateReads stored))) in *.
    unfold noNeedToShovel. simpl. rewrite filter_app, length_app. lia.
Qed.

Lemma callback_invoked_again_witness :
  (2 <= List.length (filter isCallback (trace (run EST sendFails None))))%nat.
Proof.
  apply (callback_invoked_again EST sendFails None snowyNight noData).
  - reflexivity.
  - reflexivity.
  - reflexivity.
  - vm_compute. reflexivity.
  - left. discriminate.
Defined.

(** ** The marker after a failed send *)

(** Whenever a rule matches and the send fails, the callback gets the error
    and the marker is written all the same: the [if (err)] branch of the send
    callback does not return. *)
Lemma send_error_still_writes off w stored y t e :
  storage_get_error w = None ->
  markerIs stored (formatDate off (clock w 0)) = false ->
  fetched w = Fulfilled y t ->
  snowRule off (clock w (4 + gateReads stored))
           (aggregated off w (gateReads stored) y t) = true ->
  send_err w = Some e ->
  storage_set_error w = None ->
  In (Callback (Some e) None) (trace (run off w stored))
  /\ storage (run off w stored)
     = Some {| lastMessageSent :=
                 Some (formatDate off (clock w (5 + gateReads stored))) |}.
Proof.
  intros He Hm Hf Hr Hs Hset. rewrite (run_rule off w stored y t He Hm Hf Hr).
  cbn [trace storage]. rewrite Hset. split; [|reflexivity].
  apply in_or_app. right. apply in_or_app. right.
  unfold sendCallbackEvents. rewrite Hs. simpl. auto.
Qed.

(** C2 (the code at the failing input): at 07:00 after 30 cm of snow, with
    nothing stored and a send that fails with ECONNRESET, the error reaches
    the callback and the marker of the day is written nevertheless. *)
Theorem send_error_marker_written :
  trace (run EST sendFails None)
  = [StorageGet;
     LoadTime (midnight - MS_PER_DAY);
     LoadTime midnight;
     PushoverSend (msg 30%Q);
     noNeedToShovel 30%Q;
     ConsoleLog "Cannot send pushover notification: " (LogError (Some "ECONNRESET"%string));
     Callback (Some "ECONNRESET"%string) None;
     ConsoleLog "Sent pushover notification: " (LogResult None);
     StorageSet {| lastMessageSent := Some 17911 |}]
  /\ storage (run EST sendFails None) = Some {| lastMessageSent := Some 17911 |}
  /\ formatDate EST (midnight + 7 * MS_PER_HOUR) = 17911.
Proof. vm_compute. repeat split. Qed.

(** ** The snow aggregator *)

Lemma orZero_some q : (orZero (Some q) == q)%Q.
Proof.
  simpl. destruct (Qeq_bool q 0) eqn:Hz.
  - symmetry. now apply Qeq_bool_iff.
  - reflexivity.
Qed.

(** The [reduce] is the exact sum as long as no addition rounds. *)
Lemma fold_left_exact l acc :
  addsExactly acc l = true ->
  (fold_left (fun sum val => doubleAdd sum (snow val)) l acc == acc + sumSnow l)%Q.
Proof.
  revert acc. induction l as [|x l IH]; intros acc Hex; simpl in *.
  - now rewrite Qplus_0_r.
  - apply andb_true_iff in Hex. destruct Hex as [Hx Hl].
    apply Qeq_bool_iff in Hx. rewrite (IH _ Hl), Hx. now rewrite Qplus_assoc.
Qed.

(** The [reduce] ends on a finite double when all it meets are finite. *)
Lemma fold_left_finite l acc :
  isFinite64 acc = true ->
  staysFinite acc l = true ->
  isFinite64 (fold_left (fun sum val => doubleAdd sum (snow val)) l acc) = true.
Proof.
  revert acc. induction l as [|x l IH]; intros acc Hacc Hfin; simpl in *.
  - exact Hacc.
  - apply andb_true_iff in Hfin. destruct Hfin as [Hx Hl].
    apply andb_true_iff in Hx. destruct Hx as [_ Hx]. exact (IH _ Hx Hl).
Qed.

(** The order of the additions shows in the last place: 0.1, 0.2 and 0.3
    (the doubles nearest to them) add up to 0.6000000000000001 from the left,
    and to 0.6 when the last two are added first. *)
Lemma sum_depends_on_order :
  snowTotal [ {| sample_time := 0; snow := 1 # 10 |};
              {| sample_time := 0; snow := 2 # 10 |};
              {| sample_time := 0; snow := 3 # 10 |} ]
  = 1351079888211149 # 2251799813685248
  /\ doubleAdd (1 # 10) (doubleAdd (2 # 10) (3 # 10))
     = 5404319552844595 # 9007199254740992.
Proof. vm_compute. split; reflexivity. Qed.

Lemma millisecondOf_range off m : 0 <= millisecondOf off m < MS_PER_SECOND.
Proof. time_arith. Qed.

(** The filter of [snowArray], in terms of the two local days. *)
Lemma snowArray_eq off t3 t4 yesterday today :
  snowArray (yesterdayEvening off t3) (todayMorning off t4) yesterday today
  = filter (fun x =>
              (startOfDay off t3 - MS_PER_DAY + 21 * MS_PER_HOUR <? sample_time x)
              && (sample_time x
                  <? startOfDay off t4 + 22 * MS_PER_HOUR + millisecondOf off t4))
           (map toSample (hourly_data yesterday ++ hourly_data today)).
Proof.
  unfold snowArray, isBetween, isAfter, isBefore.
  now rewrite yesterdayEvening_eq, todayMorning_eq.
Qed.

(** C3 (as stated, refuted): a sample at yesterday 21:00:00 sharp lies in the
    window of the specification and is dropped by the code. *)
Lemma sample_at_2100_dropped :
  momentUnix 1547517600 = midnight - MS_PER_DAY + 21 * MS_PER_HOUR
  /\ specWindow EST (midnight + 7 * MS_PER_HOUR) (momentUnix 1547517600) = true
  /\ snowArray (yesterdayEvening EST (midnight + 7 * MS_PER_HOUR))
               (todayMorning EST (midnight + 7 * MS_PER_HOUR))
               {| hourly_data :=
                    [ {| time := 1547517600; precipAccumulation := Some 10%Q |} ] |}
               noData
     = []
  /\ snowTotal
       (snowArray (yesterdayEvening EST (midnight + 7 * MS_PER_HOUR))
                  (todayMorning EST (midnight + 7 * MS_PER_HOUR))
                  {| hourly_data :=
                       [ {| time := 1547517600; precipAccumulation := Some 10%Q |} ] |}
                  noData)
     = 0%Q.
Proof. vm_compute. repeat split. Qed.

(** Where the end bound lies within that second follows the milliseconds of
    the clock reading, since [todayMorning] is built without
    [.milliseconds(0)]: read at 07:00:00.250 the sample of today 22:00:00 is
    kept, read at 07:00:00.000 it is dropped. *)
Lemma end_bound_follows_clock_milliseconds :
  momentUnix 1547607600 = midnight + 22 * MS_PER_HOUR
  /\ snowArray (yesterdayEvening EST (midnight + 7 * MS_PER_HOUR + 250))
               (todayMorning EST (midnight + 7 * MS_PER_HOUR + 250))
               noData
               {| hourly_data :=
                    [ {| time := 1547607600; precipAccumulation := Some 10%Q |} ] |}
     = [ {| sample_time := midnight + 22 * MS_PER_HOUR; snow := 10%Q |} ]
  /\ snowArray (yesterdayEvening EST (midnight + 7 * MS_PER_HOUR))
               (todayMorning EST (midnight + 7 * MS_PER_HOUR))
               noData
               {| hourly_data :=
                    [ {| time := 1547607600; precipAccumulation := Some 10%Q |} ] |}
     = [].
Proof. vm_compute. repeat split. Qed.

(** *** The bounds of the window in a zone whose offset changes *)

Lemma minutesIn_at tz off n m : tz m = off -> minutesIn tz n m = minutes off n m.
Proof. intros <-. reflexivity. Qed.

Lemma secondsIn_at tz off n m : tz m = off -> secondsIn tz n m = seconds off n m.
Proof. intros <-. reflexivity. Qed.

Lemma millisecondsIn_at tz off n m :
  tz m = off -> millisecondsIn tz n m = milliseconds off n m.
Proof. intros <-. reflexivity. Qed.

Lemma hoursIn_at tz off h m :
  tz m = off -> tz (hours off h m) = off -> hoursIn tz h m = hours off h m.
Proof.
  intros Hm Hh. unfold hoursIn, keepWall, timeOfDayIn, wallOf. rewrite Hm.
  replace (m + off + (h - (m + off) mod MS_PER_DAY / MS_PER_HOUR) * MS_PER_HOUR - off)
    with (hours off h m) by (unfold hours, hourOf, timeOfDay, localMs; lia).
  rewrite Hh. unfold hours, hourOf, timeOfDay, localMs. lia.
Qed.

Lemma subtractDaysIn_one tz m :
  subtractDaysIn tz 1 m = subtractDays 1 (m + tz m - tz (m - MS_PER_DAY)).
Proof.
  unfold subtractDaysIn, keepWall, wallOf, subtractDays.
  replace (m + tz m - 1 * MS_PER_DAY - tz m) with (m - MS_PER_DAY) by lia. lia.
Qed.

(** On a zone that keeps its offset the bounds are those of the program. *)
Lemma yesterdayEveningIn_const off now :
  yesterdayEveningIn (fun _ => off) now = yesterdayEvening off now.
Proof.
  unfold yesterdayEveningIn. rewrite subtractDaysIn_one.
  replace (now + off - off) with now by lia.
  rewrite (hoursIn_at (fun _ => off) off 21 _ eq_refl eq_refl).
  now rewrite (minutesIn_at (fun _ => off) off 0 _ eq_refl),
    (secondsIn_at (fun _ => off) off 0 _ eq_refl),
    (millisecondsIn_at (fun _ => off) off 0 _ eq_refl).
Qed.

Lemma todayMorningIn_const off now :
  todayMorningIn (fun _ => off) now = todayMorning off now.
Proof.
  unfold todayMorningIn.
  rewrite (hoursIn_at (fun _ => off) off 22 _ eq_refl eq_refl).
  now rewrite (minutesIn_at (fun _ => off) off 0 _ eq_refl),
    (secondsIn_at (fun _ => off) off 0 _ eq_refl).
Qed.

(** [todayMorning] is today 22:00:00 on the local clock plus the
    milliseconds of the reading. *)
Lemma todayMorningIn_eq tz now :
  todaySettled tz now ->
  todayMorningIn tz now = today2200 tz now + wallOf tz now mod MS_PER_SECOND.
Proof.
  intros HT. unfold todaySettled, localDayIn, wallOf in HT.
  set (o := tz now) in *.
  assert (Hb : tz (hours o 22 now) = o).
  { apply HT. rewrite hours_eq. time_arith. }
  assert (Hc : tz (minutes o 0 (hours o 22 now)) = o).
  { apply HT. rewrite hours_eq. time_arith. }
  unfold todayMorningIn.
  rewrite (hoursIn_at tz o 22 now eq_refl Hb).
  rewrite (minutesIn_at tz o 0 _ Hb), (secondsIn_at tz o 0 _ Hc).
  change (seconds o 0 (minutes o 0 (hours o 22 now))) with (todayMorning o now).
  rewrite todayMorning_eq. unfold today2200, localDayIn, wallOf. fold o.
  time_arith.
Qed.

(** [yesterdayEvening] is yesterday 21:00:00.000 on the local clock. *)
Lemma yesterdayEveningIn_eq tz now :
  yesterdaySettled tz now ->
  yesterdayEveningIn tz now = yesterday2100 tz now.
Proof.
  intros HY. unfold yesterdaySettled, localDayIn, timeOfDayIn, wallOf in HY.
  set (o := tz (now - MS_PER_DAY)) in *.
  set (a := subtractDays 1 (now + tz now - o)).
  assert (Ha : tz a = o).
  { apply HY. unfold a. time_arith. }
  assert (Hb : tz (hours o 21 a) = o).
  { apply HY. rewrite hours_eq. unfold a. time_arith. }
  assert (Hc : tz (minutes o 0 (hours o 21 a)) = o).
  { apply HY. rewrite hours_eq. unfold a. time_arith. }
  assert (Hd : tz (seconds o 0 (minutes o 0 (hours o 21 a))) = o).
  { apply HY. rewrite hours_eq. unfold a. time_arith. }
  unfold yesterdayEveningIn. rewrite subtractDaysIn_one. fold o. fold a.
  rewrite (hoursIn_at tz o 21 a Ha Hb).
  rewrite (minutesIn_at tz o 0 _ Hb), (secondsIn_at tz o 0 _ Hc),
    (millisecondsIn_at tz o 0 _ Hd).
  change (milliseconds o 0 (seconds o 0 (minutes o 0 (hours o 21 a))))
    with (yesterdayEvening o (now + tz now - o)).
  rewrite yesterdayEvening_eq. unfold yesterday2100, localDayIn, wallOf. fold o.
  time_arith.
Qed.

(** The two instants read 21:00:00.000 of the day before and 22:00:00.000 of
    the day on the local clock. *)
Lemma wallOf_yesterday2100 tz now :
  yesterdaySettled tz now ->
  wallOf tz (yesterday2100 tz now)
  = (localDayIn tz now - 1) * MS_PER_DAY + 21 * MS_PER_HOUR.
Proof.
  intros HY. unfold wallOf at 1.
  rewrite (HY (yesterday2100 tz now)); unfold yesterday2100; [lia|].
  pose proof (Z.mod_pos_bound (wallOf tz now) MS_PER_DAY eq_refl) as Hr.
  unfold timeOfDayIn, MS_PER_DAY, MS_PER_HOUR in *. lia.
Qed.

Lemma wallOf_today2200 tz now :
  todaySettled tz now ->
  wallOf tz (today2200 tz now) = localDayIn tz now * MS_PER_DAY + 22 * MS_PER_HOUR.
Proof.
  intros HT. unfold wallOf at 1.
  rewrite (HT (today2200 tz now)); unfold today2200; [lia|].
  unfold MS_PER_DAY, MS_PER_HOUR. lia.
Qed.

(** The filter of [snowArray], in terms of the two local clock times. *)
Lemma snowArrayIn_eq tz t3 t4 yesterday today :
  yesterdaySettled tz t3 ->
  todaySettled tz t4 ->
  snowArray (yesterdayEveningIn tz t3) (todayMorningIn tz t4) yesterday today
  = filter (fun x =>
              (yesterday2100 tz t3 <? sample_time x)
              && (sample_time x
                  <? today2200 tz t4 + wallOf tz t4 mod MS_PER_SECOND))
           (map toSample (hourly_data yesterday ++ hourly_data today)).
Proof.
  intros HY HT. unfold snowArray, isBetween, isAfter, isBefore.
  now rewrite (yesterdayEveningIn_eq tz t3 HY), (todayMorningIn_eq tz t4 HT).
Qed.

(** C3 (amended): as long as the zone's offset does not change between the
    time of day of the clock reading and 21:00-22:00 on the day before, nor
    between the reading and 22:00-23:00 of its day, and the sum stays within
    the finite doubles, the aggregator keeps, in their order, exactly the
    samples whose timestamp is strictly after yesterday 21:00:00.000 (local
    clock) and strictly before an end bound lying in the second that starts
    at today 22:00:00.000 (local clock); so a sample strictly between the two
    is kept, and one at or before yesterday 21:00, or at or after today
    22:00:01, is dropped.  A missing accumulation counts as 0, a present one
    as itself.  The result is the sum of the accumulations of the kept
    samples, added from the left in double arithmetic: a finite double, equal
    to the exact sum when no addition rounds. *)
Theorem overnight_window tz t3 t4 yesterday today :
  yesterdaySettled tz t3 ->
  todaySettled tz t4 ->
  staysFinite 0%Q (snowArray (yesterdayEveningIn tz t3) (todayMorningIn tz t4)
                             yesterday today) = true ->
  wallOf tz (yesterday2100 tz t3)
  = (localDayIn tz t3 - 1) * MS_PER_DAY + 21 * MS_PER_HOUR
  /\ wallOf tz (today2200 tz t4) = localDayIn tz t4 * MS_PER_DAY + 22 * MS_PER_HOUR
  /\ exists slack : Z,
       0 <= slack < MS_PER_SECOND
       /\ snowArray (yesterdayEveningIn tz t3) (todayMorningIn tz t4) yesterday today
          = filter (fun x =>
                      (yesterday2100 tz t3 <? sample_time x)
                      && (sample_time x <? today2200 tz t4 + slack))
                   (map toSample (hourly_data yesterday ++ hourly_data today))
       /\ (forall x,
             In x (map toSample (hourly_data yesterday ++ hourly_data today)) ->
             yesterday2100 tz t3 < sample_time x ->
             sample_time x < today2200 tz t4 ->
             In x (snowArray (yesterdayEveningIn tz t3) (todayMorningIn tz t4)
                             yesterday today))
       /\ (forall x,
             In x (snowArray (yesterdayEveningIn tz t3) (todayMorningIn tz t4)
                             yesterday today) ->
             yesterday2100 tz t3 < sample_time x
             /\ sample_time x < today2200 tz t4 + MS_PER_SECOND)
       /\ (forall t,
             snow (toSample {| time := t; precipAccumulation := None |}) = 0%Q)
       /\ (forall t q,
             (snow (toSample {| time := t; precipAccumulation := Some q |}) == q)%Q)
       /\ snowTotal (snowArray (yesterdayEveningIn tz t3) (todayMorningIn tz t4)
                               yesterday today)
          = fold_left (fun sum val => doubleAdd sum (snow val))
                      (snowArray (yesterdayEveningIn tz t3) (todayMorningIn tz t4)
                                 yesterday today) 0%Q
       /\ isFinite64
            (snowTotal (snowArray (yesterdayEveningIn tz t3) (todayMorningIn tz t4)
                                  yesterday today)) = true
       /\ (addsExactly 0%Q
             (snowArray (yesterdayEveningIn tz t3) (todayMorningIn tz t4)
                        yesterday today) = true ->
           (snowTotal (snowArray (yesterdayEveningIn tz t3) (todayMorningIn tz t4)
                                 yesterday today)
            == sumSnow (snowArray (yesterdayEveningIn tz t3) (todayMorningIn tz t4)
                                  yesterday today))%Q).
Proof.
  intros HY HT Hfin.
  split; [exact (wallOf_yesterday2100 tz t3 HY)|].
  split; [exact (wallOf_today2200 tz t4 HT)|].
  exists (wallOf tz t4 mod MS_PER_SECOND).
  assert (Hms : 0 <= wallOf tz t4 mod MS_PER_SECOND < MS_PER_SECOND)
    by (apply Z.mod_pos_bound; reflexivity).
  split; [exact Hms|]. split; [exact (snowArrayIn_eq tz t3 t4 yesterday today HY HT)|].
  split; [|split; [|split; [|split; [|split; [|split]]]]].
  - intros x Hin Hlo Hhi. rewrite (snowArrayIn_eq tz t3 t4 yesterday today HY HT).
    apply filter_In. split; [exact Hin|].
    apply andb_true_iff. rewrite !Z.ltb_lt. lia.
  - intros x Hin. rewrite (snowArrayIn_eq tz t3 t4 yesterday today HY HT) in Hin.
    apply filter_In in Hin. destruct Hin as [_ Hin].
    apply andb_true_iff in Hin. rewrite !Z.ltb_lt in Hin. lia.
  - reflexivity.
  - intros t q. apply orZero_some.
  - reflexivity.
  - apply fold_left_finite; [vm_compute; reflexivity | exact Hfin].
  - intros Hex. unfold snowTotal. rewrite (fold_left_exact _ _ Hex).
    apply Qplus_0_l.
Qed.

(** Around the morning after the clocks went forward the offset is settled
    in both senses. *)
Lemma springForwardMorning_settled :
  yesterdaySettled toronto2019 springForwardMorning
  /\ todaySettled toronto2019 springForwardMorning.
Proof.
  split; intros u.
  - replace (localDayIn toronto2019 springForwardMorning) with 17965
      by (vm_compute; reflexivity).
    replace (timeOfDayIn toronto2019 springForwardMorning) with 25200250
      by (vm_compute; reflexivity).
    replace (toronto2019 (springForwardMorning - MS_PER_DAY)) with EST
      by (vm_compute; reflexivity).
    unfold toronto2019, EST, MS_PER_DAY, MS_PER_HOUR. intros Hu.
    destruct (Z.ltb_spec u 1552201200000); [reflexivity | lia].
  - replace (localDayIn toronto2019 springForwardMorning) with 17965
      by (vm_compute; reflexivity).
    replace (toronto2019 springForwardMorning) with EDT
      by (vm_compute; reflexivity).
    unfold toronto2019, EDT, MS_PER_DAY, MS_PER_HOUR. intros Hu.
    destruct (Z.ltb_spec u 1552201200000); [lia|].
    destruct (Z.ltb_spec u 1572760800000); [reflexivity | lia].
Defined.

(** On the morning after the clocks went forward the window is 24 hours
    long: it starts at 03-09 21:00 EST and ends at 03-10 22:00 EDT.  The
    entries at 03-09 21:00 EST and at 03-10 22:00 EDT bound it; of those, the
    first is dropped and the second is kept, by the 250 ms of the reading. *)
Lemma overnight_window_witness :
  yesterdayEveningIn toronto2019 springForwardMorning = 1552183200000
  /\ todayMorningIn toronto2019 springForwardMorning = 1552269600250
  /\ snowArray (yesterdayEveningIn toronto2019 springForwardMorning)
               (todayMorningIn toronto2019 springForwardMorning)
               springYesterday springToday
     = [ {| sample_time := 1552186800000; snow := 1 # 2 |};
         {| sample_time := 1552266000000; snow := 0 |};
         {| sample_time := 1552269600000; snow := 1 # 4 |} ]
  /\ isFinite64
       (snowTotal (snowArray (yesterdayEveningIn toronto2019 springForwardMorning)
                             (todayMorningIn toronto2019 springForwardMorning)
                             springYesterday springToday)) = true.
Proof.
  assert (HF : staysFinite 0%Q
                 (snowArray (yesterdayEveningIn toronto2019 springForwardMorning)
                            (todayMorningIn toronto2019 springForwardMorning)
                            springYesterday springToday) = true)
    by (vm_compute; reflexivity).
  destruct (overnight_window toronto2019 springForwardMorning springForwardMorning
              springYesterday springToday
              (proj1 springForwardMorning_settled)
              (proj2 springForwardMorning_settled) HF)
    as (_ & _ & _ & _ & _ & _ & _ & _ & _ & _ & Hfinite & _).
  split; [vm_compute; reflexivity|]. split; [vm_compute; reflexivity|].
  split; [vm_compute; reflexivity | exact Hfinite].
Defined.

(** ** Further properties of one invocation *)

(** The four ways an invocation can go. *)
Ltac run_cases off w stored :=
  let e := fresh "e" in
  let He := fresh "He" in
  let Hm := fresh "Hm" in
  let Hf := fresh "Hf" in
  let Hr := fresh "Hr" in
  let y := fresh "y" in
  let t := fresh "t" in
  let err := fresh "err" in
  destruct (storage_get_error w) as [e|] eqn:He;
  [ rewrite (run_read_error off w stored e He)
  | destruct (markerIs stored (formatDate off (clock w 0))) eqn:Hm;
    [ rewrite (run_already_sent off w stored He Hm)
    | destruct (fetched w) as [y t|err] eqn:Hf;
      [ destruct (snowRule off (clock w (4 + gateReads stored))
                           (aggregated off w (gateReads stored) y t)) eqn:Hr;
        [ rewrite (run_rule off w stored y t He Hm Hf Hr)
        | rewrite (run_no_rule off w stored y t He Hm Hf Hr) ]
      | rewrite (run_rejected off w stored err He Hm Hf) ] ] ];
  cbn [trace storage reads inflight].

Lemma filter_isSend_onerrorCalls w : filter isSend (onerrorCalls w) = [].
Proof.
  unfold onerrorCalls. induction (pushover_onerror w) as [|e l IH]; simpl; auto.
Qed.

Lemma filter_isStorageSet_onerrorCalls w : filter isStorageSet (onerrorCalls w) = [].
Proof.
  unfold onerrorCalls. induction (pushover_onerror w) as [|e l IH]; simpl; auto.
Qed.

Lemma filter_isLoadTime_onerrorCalls w : filter isLoadTime (onerrorCalls w) = [].
Proof.
  unfold onerrorCalls. induction (pushover_onerror w) as [|e l IH]; simpl; auto.
Qed.

Lemma filter_isSend_sendCallbackEvents off w today :
  filter isSend (sendCallbackEvents off w today) = [].
Proof.
  unfold sendCallbackEvents.
  destruct (send_err w), (storage_set_error w); reflexivity.
Qed.

Lemma filter_isLoadTime_sendCallbackEvents off w today :
  filter isLoadTime (sendCallbackEvents off w today) = [].
Proof.
  unfold sendCallbackEvents.
  destruct (send_err w), (storage_set_error w); reflexivity.
Qed.

Lemma filter_isStorageSet_sendCallbackEvents off w today :
  filter isStorageSet (sendCallbackEvents off w today)
  = [StorageSet {| lastMessageSent := Some (formatDate off today) |}].
Proof.
  unfold sendCallbackEvents.
  destruct (send_err w), (storage_set_error w); reflexivity.
Qed.

(** X1: when the weather provider fails, the error is logged and handed to
    the callback, once; nothing is sent and the persisted record stays. *)
Theorem provider_failure_aborts off w stored err :
  storage_get_error w = None ->
  markerIs stored (formatDate off (clock w 0)) = false ->
  fetched w = Rejected err ->
  filter isCallback (trace (run off w stored)) = [Callback (Some err) None]
  /\ In (ConsoleLog "Error: " (LogError (Some err))) (trace (run off w stored))
  /\ existsb isSend (trace (run off w stored)) = false
  /\ existsb isStorageSet (trace (run off w stored)) = false
  /\ storage (run off w stored) = stored.
Proof.
  intros He Hm Hf. rewrite (run_rejected off w stored err He Hm Hf).
  cbn [trace storage]. repeat split. simpl. auto.
Qed.

Lemma provider_failure_aborts_witness :
  filter isCallback
    (trace (run EST
              {| clock := fun _ => midnight + 7 * MS_PER_HOUR;
                 storage_get_error := None;
                 fetched := Rejected "ETIMEDOUT"%string;
                 pushover_onerror := [];
                 send_err := None;
                 send_result := None;
                 storage_set_error := None |}
              None))
  = [Callback (Some "ETIMEDOUT"%string) None].
Proof.
  apply (provider_failure_aborts EST
           {| clock := fun _ => midnight + 7 * MS_PER_HOUR;
              storage_get_error := None;
              fetched := Rejected "ETIMEDOUT"%string;
              pushover_onerror := [];
              send_err := None;
              send_result := None;
              storage_set_error := None |}
           None "ETIMEDOUT"%string);
    reflexivity.
Defined.

(** X2: an invocation hands a message to Pushover exactly when the read of
    the record succeeded, the marker is not today's date, both provider calls
    succeeded and the rule holds for the aggregated total. *)
Theorem notification_iff off w stored :
  existsb isSend (trace (run off w stored)) = true
  <-> (storage_get_error w = None
       /\ markerIs stored (formatDate off (clock w 0)) = false
       /\ exists y t,
            fetched w = Fulfilled y t
            /\ snowRule off (clock w (4 + gateReads stored))
                         (aggregated off w (gateReads stored) y t) = true).
Proof.
  run_cases off w stored.
  - split; [discriminate | intros [H _]; discriminate H].
  - split; [discriminate | intros (_ & H & _); discriminate H].
  - split; [|reflexivity]. intros _. repeat split. exists y, t. auto.
  - split; [discriminate|]. intros (_ & _ & y' & t' & Heq & Hr').
    injection Heq as <- <-. congruence.
  - split; [discriminate|]. intros (_ & _ & y' & t' & Heq & _). discriminate Heq.
Qed.

(** X3: one invocation sends at most one message and writes the marker at
    most once. *)
Theorem at_most_one_send off w stored :
  (List.length (filter isSend (trace (run off w stored))) <= 1)%nat
  /\ (List.length (filter isStorageSet (trace (run off w stored))) <= 1)%nat.
Proof.
  run_cases off w stored; try (simpl; lia).
  rewrite !filter_app, filter_isSend_onerrorCalls, filter_isSend_sendCallbackEvents,
    filter_isStorageSet_onerrorCalls, filter_isStorageSet_sendCallbackEvents.
  unfold noNeedToShovel. simpl. lia.
Qed.

(** X4: the marker write is attempted exactly when a send was started,
    whatever the outcome of the send. *)
Theorem write_follows_send off w stored :
  existsb isStorageSet (trace (run off w stored))
  = existsb isSend (trace (run off w stored)).
Proof.
  run_cases off w stored; try reflexivity.
  rewrite !existsb_app. unfold sendCallbackEvents.
  destruct (send_err w), (storage_set_error w); simpl;
    now rewrite ?orb_true_r.
Qed.

(** X5: the caller always gets an answer: the callback is called at least
    once in every invocation, and exactly once when no send was started. *)
Theorem callback_at_least_once off w stored :
  (1 <= List.length (filter isCallback (trace (run off w stored))))%nat
  /\ (existsb isSend (trace (run off w stored)) = false ->
      List.length (filter isCallback (trace (run off w stored))) = 1%nat).
Proof.
  run_cases off w stored; try (split; [simpl; lia | reflexivity]).
  split.
  - rewrite filter_app. unfold noNeedToShovel. simpl. lia.
  - discriminate.
Qed.

(** X6: the persisted record after an invocation: today's marker when a send
    was started and the write succeeded, the record as it was otherwise.  It
    is never removed. *)
Theorem storage_after_run off w stored :
  storage (run off w stored)
  = (if existsb isSend (trace (run off w stored))
     then match storage_set_error w with
          | Some _ => stored
          | None =>
              Some {| lastMessageSent :=
                        Some (formatDate off (clock w (5 + gateReads stored))) |}
          end
     else stored)
  /\ (stored <> None -> storage (run off w stored) <> None).
Proof.
  run_cases off w stored; (split; [reflexivity|]); auto.
  destruct (storage_set_error w); [auto | discriminate].
Qed.

(** X7: the calls to the weather provider of one invocation: two when the
    read succeeded and the marker is not today's date, none otherwise. *)
Theorem provider_calls_two_or_none off w stored :
  List.length (filter isLoadTime (trace (run off w stored)))
  = match storage_get_error w with
    | Some _ => 0%nat
    | None => if markerIs stored (formatDate off (clock w 0)) then 0%nat else 2%nat
    end.
Proof.
  run_cases off w stored; try reflexivity.
  rewrite !filter_app, filter_isLoadTime_onerrorCalls,
    filter_isLoadTime_sendCallbackEvents.
  reflexivity.
Qed.

(** X8: after an invocation that started a send and wrote the marker, an
    invocation on the same local day stops at the gate: no provider call, no
    send. *)
Theorem second_invocation_same_day off w w' stored y t :
  storage_get_error w = None ->
  markerIs stored (formatDate off (clock w 0)) = false ->
  fetched w = Fulfilled y t ->
  snowRule off (clock w (4 + gateReads stored))
           (aggregated off w (gateReads stored) y t) = true ->
  storage_set_error w = None ->
  storage_get_error w' = None ->
  formatDate off (clock w' 0) = formatDate off (clock w (5 + gateReads stored)) ->
  trace (run off w' (storage (run off w stored)))
  = [StorageGet;
     ConsoleLog "Message was already sent today, exiting." LogNothing;
     Callback None (Some (Literal "Message was already sent today!"))].
Proof.
  intros He Hm Hf Hr Hset He' Hday.
  rewrite (run_rule off w stored y t He Hm Hf Hr). cbn [storage]. rewrite Hset.
  rewrite (run_already_sent off w' _ He'); [reflexivity|].
  simpl. rewrite Hday. apply Z.eqb_refl.
Qed.

Lemma second_invocation_same_day_witness :
  trace (run EST (calmWorld (midnight + 8 * MS_PER_HOUR) snowyNight noData)
             (storage (run EST (calmWorld (midnight + 7 * MS_PER_HOUR)
                                          snowyNight noData) None)))
  = [StorageGet;
     ConsoleLog "Message was already sent today, exiting." LogNothing;
     Callback None (Some (Literal "Message was already sent today!"))].
Proof.
  apply (second_invocation_same_day EST
           (calmWorld (midnight + 7 * MS_PER_HOUR) snowyNight noData)
           (calmWorld (midnight + 8 * MS_PER_HOUR) snowyNight noData)
           None snowyNight noData);
    vm_compute; reflexivity.
Defined.

(** X9: when the rule holds, Pushover reports nothing and the write
    succeeds, the invocation calls the callback once, with the
    no-need-to-shovel result, and leaves today's marker. *)
Theorem quiet_send off w stored y t :
  storage_get_error w = None ->
  markerIs stored (formatDate off (clock w 0)) = false ->
  fetched w = Fulfilled y t ->
  snowRule off (clock w (4 + gateReads stored))
           (aggregated off w (gateReads stored) y t) = true ->
  pushover_onerror w = [] ->
  send_err w = None ->
  storage_set_error w = None ->
  trace (run off w stored)
  = [StorageGet;
     LoadTime (startOfDay off (subtractDays 1 (clock w (gateReads stored))));
     LoadTime (startOfDay off (clock w (1 + gateReads stored)));
     PushoverSend (msg (aggregated off w (gateReads stored) y t));
     noNeedToShovel (aggregated off w (gateReads stored) y t);
     ConsoleLog "Sent pushover notification: " (LogResult (send_result w));
     StorageSet {| lastMessageSent :=
                     Some (formatDate off (clock w (5 + gateReads stored))) |}]
  /\ storage (run off w stored)
     = Some {| lastMessageSent :=
                 Some (formatDate off (clock w (5 + gateReads stored))) |}.
Proof.
  intros He Hm Hf Hr Hon Hs Hset. rewrite (run_rule off w stored y t He Hm Hf Hr).
  cbn [trace storage]. unfold onerrorCalls, sendCallbackEvents.
  rewrite Hon, Hs, Hset. split; reflexivity.
Qed.

Lemma quiet_send_witness :
  storage (run EST (calmWorld (midnight + 7 * MS_PER_HOUR) snowyNight noData) None)
  = Some {| lastMessageSent := Some 17911 |}.
Proof.
  apply (quiet_send EST (calmWorld (midnight + 7 * MS_PER_HOUR) snowyNight noData)
           None snowyNight noData);
    vm_compute; reflexivity.
Defined.

(** ** Further properties of the notifier *)

Lemma snowRule_at_most_5 off now s : (s <= 5)%Q -> snowRule off now s = false.
Proof.
  intros Hs. rewrite snowRule_eq.
  assert (H5 : num_gt s MINIMUM_SNOW_0630 = false) by (apply num_gt_false; exact Hs).
  assert (H20 : num_gt s MINIMUM_SNOW_0600 = false).
  { apply num_gt_false. apply Qle_trans with 5%Q; [exact Hs | discriminate]. }
  assert (H40 : num_gt s MINIMUM_SNOW_0500 = false).
  { apply num_gt_false. apply Qle_trans with 5%Q; [exact Hs | discriminate]. }
  rewrite H5, H20, H40. now rewrite !andb_false_r.
Qed.

(** X10: from local midnight to 05:00:00.000 nothing is sent, whatever the
    snow total. *)
Theorem silent_until_0500 off w st s :
  timeOfDay off (clock w (reads st)) <= 5 * MS_PER_HOUR ->
  notificationSent (pushNotificationIfNeeded off w s) st = false.
Proof.
  intros Ht. rewrite notificationSent_rule, snowRule_eq.
  assert (H5 : (5 * MS_PER_HOUR <? timeOfDay off (clock w (reads st))) = false)
    by (apply Z.ltb_ge; exact Ht).
  assert (H6 : (6 * MS_PER_HOUR <? timeOfDay off (clock w (reads st))) = false)
    by (apply Z.ltb_ge; unfold MS_PER_HOUR in *; lia).
  assert (H63 : (6 * MS_PER_HOUR + 30 * MS_PER_MINUTE
                 <? timeOfDay off (clock w (reads st))) = false)
    by (apply Z.ltb_ge; unfold MS_PER_HOUR, MS_PER_MINUTE in *; lia).
  now rewrite H5, H6, H63.
Qed.

Lemma silent_until_0500_witness :
  notificationSent
    (pushNotificationIfNeeded EST
       (calmWorld (midnight + 4 * MS_PER_HOUR) noData noData) 100%Q)
    (initial None) = false.
Proof.
  apply (silent_until_0500 EST
           (calmWorld (midnight + 4 * MS_PER_HOUR) noData noData)
           (initial None) 100%Q).
  vm_compute. discriminate.
Defined.

(** X11: the threshold in force by time of day: after 05:00 and up to 06:00
    a total is notified exactly when it exceeds 40 cm, after 06:00 and up to
    06:30 exactly when it exceeds 20 cm. *)
Theorem threshold_by_time off w st s :
  (5 * MS_PER_HOUR < timeOfDay off (clock w (reads st)) <= 6 * MS_PER_HOUR ->
   notificationSent (pushNotificationIfNeeded off w s) st
   = num_gt s MINIMUM_SNOW_0500)
  /\ (6 * MS_PER_HOUR < timeOfDay off (clock w (reads st))
        <= 6 * MS_PER_HOUR + 30 * MS_PER_MINUTE ->
      notificationSent (pushNotificationIfNeeded off w s) st
      = num_gt s MINIMUM_SNOW_0600).
Proof.
  rewrite notificationSent_rule, snowRule_eq. split; intros [Hlo Hhi].
  - assert (H5 : (5 * MS_PER_HOUR <? timeOfDay off (clock w (reads st))) = true)
      by (apply Z.ltb_lt; exact Hlo).
    assert (H6 : (6 * MS_PER_HOUR <? timeOfDay off (clock w (reads st))) = false)
      by (apply Z.ltb_ge; exact Hhi).
    assert (H63 : (6 * MS_PER_HOUR + 30 * MS_PER_MINUTE
                   <? timeOfDay off (clock w (reads st))) = false)
      by (apply Z.ltb_ge; unfold MS_PER_HOUR, MS_PER_MINUTE in *; lia).
    rewrite H5, H6, H63. simpl. now rewrite !orb_false_r.
  - assert (H5 : (5 * MS_PER_HOUR <? timeOfDay off (clock w (reads st))) = true)
      by (apply Z.ltb_lt; unfold MS_PER_HOUR in *; lia).
    assert (H6 : (6 * MS_PER_HOUR <? timeOfDay off (clock w (reads st))) = true)
      by (apply Z.ltb_lt; exact Hlo).
    assert (H63 : (6 * MS_PER_HOUR + 30 * MS_PER_MINUTE
                   <? timeOfDay off (clock w (reads st))) = false)
      by (apply Z.ltb_ge; exact Hhi).
    rewrite H5, H6, H63. simpl. rewrite orb_false_r.
    destruct (num_gt s MINIMUM_SNOW_0600) eqn:H20; [apply orb_true_r|].
    apply num_gt_false in H20.
    assert (H40 : num_gt s MINIMUM_SNOW_0500 = false).
    { apply num_gt_false. apply Qle_trans with MINIMUM_SNOW_0600;
        [exact H20 | discriminate]. }
    now rewrite H40.
Qed.

Lemma threshold_by_time_witness :
  notificationSent
    (pushNotificationIfNeeded EST
       (calmWorld (midnight + 5 * MS_PER_HOUR + 30 * MS_PER_MINUTE) noData noData)
       (75 # 2))
    (initial None) = num_gt (75 # 2) MINIMUM_SNOW_0500
  /\ notificationSent
       (pushNotificationIfNeeded EST
          (calmWorld (midnight + 6 * MS_PER_HOUR + 30 * MS_PER_MINUTE) noData noData)
          (41 # 2))
       (initial None) = num_gt (41 # 2) MINIMUM_SNOW_0600.
Proof.
  split.
  - apply (proj1 (threshold_by_time EST
             (calmWorld (midnight + 5 * MS_PER_HOUR + 30 * MS_PER_MINUTE)
                        noData noData)
             (initial None) (75 # 2))).
    vm_compute. split; [reflexivity | discriminate].
  - apply (proj2 (threshold_by_time EST
             (calmWorld (midnight + 6 * MS_PER_HOUR + 30 * MS_PER_MINUTE)
                        noData noData)
             (initial None) (41 # 2))).
    vm_compute. split; [reflexivity | discriminate].
Defined.

(** ** Further properties of the aggregator *)

Lemma round64_zero q : (q == 0)%Q -> round64 q = 0%Q.
Proof.
  intros Hq. unfold Qeq in Hq. simpl in Hq. rewrite Z.mul_1_r in Hq.
  unfold round64. now rewrite Hq.
Qed.

Lemma fold_left_zero l :
  Forall (fun x => (snow x == 0)%Q) l ->
  fold_left (fun sum val => doubleAdd sum (snow val)) l 0%Q = 0%Q.
Proof.
  induction 1 as [|x l Hx _ IH]; simpl; [reflexivity|].
  unfold doubleAdd. rewrite (round64_zero (snow x) Hx). exact IH.
Qed.

Lemma snowArray_zero a b yesterday today :
  Forall (fun x => (orZero (precipAccumulation x) == 0)%Q)
         (hourly_data yesterday ++ hourly_data today) ->
  snowTotal (snowArray a b yesterday today) = 0%Q.
Proof.
  intros Hall. unfold snowTotal. apply fold_left_zero.
  unfold snowArray. apply Forall_forall. intros x Hin.
  apply filter_In in Hin. destruct Hin as [Hin _].
  apply in_map_iff in Hin. destruct Hin as (d & <- & Hd).
  rewrite Forall_forall in Hall. exact (Hall d Hd).
Qed.

(** X15: when no entry of the two answers carries an accumulation other than
    zero (each is missing or 0; the arrays may be empty), the invocation sends
    nothing, at any time of day, and leaves the record as it was. *)
Theorem no_snow_no_notification off w stored y t :
  fetched w = Fulfilled y t ->
  Forall (fun x => (orZero (precipAccumulation x) == 0)%Q)
         (hourly_data y ++ hourly_data t) ->
  existsb isSend (trace (run off w stored)) = false
  /\ storage (run off w stored) = stored.
Proof.
  intros Hf Hall.
  destruct (storage_get_error w) as [e|] eqn:He.
  { rewrite (run_read_error off w stored e He). split; reflexivity. }
  destruct (markerIs stored (formatDate off (clock w 0))) eqn:Hm.
  { rewrite (run_already_sent off w stored He Hm). split; reflexivity. }
  assert (Hr : snowRule off (clock w (4 + gateReads stored))
                        (aggregated off w (gateReads stored) y t) = false).
  { apply snowRule_at_most_5. unfold aggregated.
    rewrite (snowArray_zero _ _ y t Hall). discriminate. }
  rewrite (run_no_rule off w stored y t He Hm Hf Hr). split; reflexivity.
Qed.

Lemma no_snow_no_notification_witness :
  existsb isSend
    (trace (run EST
              (calmWorld (midnight + 7 * MS_PER_HOUR) noData
                 {| hourly_data :=
                      [ {| time := 1547528400; precipAccumulation := None |};
                        {| time := 1547532000; precipAccumulation := Some 0%Q |} ] |})
              None)) = false.
Proof.
  apply (no_snow_no_notification EST
           (calmWorld (midnight + 7 * MS_PER_HOUR) noData
              {| hourly_data :=
                   [ {| time := 1547528400; precipAccumulation := None |};
                     {| time := 1547532000; precipAccumulation := Some 0%Q |} ] |})
           None noData
           {| hourly_data :=
                [ {| time := 1547528400; precipAccumulation := None |};
                  {| time := 1547532000; precipAccumulation := Some 0%Q |} ] |}).
  - reflexivity.
  - simpl. repeat constructor.
Defined.

Lemma filter_none {A : Type} (p : A -> bool) (l : list A) :
  Forall (fun x => p x = false) l -> filter p l = [].
Proof.
  induction 1 as [|x l Hx _ IH]; simpl; [reflexivity|]. now rewrite Hx.
Qed.

(** X12: with both bounds built on readings of the same local day, and the
    offset settled around them, [todayMorning] lies 25 hours after
    [yesterdayEvening], plus the milliseconds of the second reading, less
    what the offset has gained since yesterday: 24 hours when the clocks went
    forward in between, 26 when they went back. *)
Theorem window_length tz t3 t4 :
  yesterdaySettled tz t3 ->
  todaySettled tz t4 ->
  localDayIn tz t3 = localDayIn tz t4 ->
  todayMorningIn tz t4 - yesterdayEveningIn tz t3
  = 25 * MS_PER_HOUR + wallOf tz t4 mod MS_PER_SECOND
    - (tz t4 - tz (t3 - MS_PER_DAY)).
Proof.
  intros HY HT Hday.
  rewrite (yesterdayEveningIn_eq tz t3 HY), (todayMorningIn_eq tz t4 HT).
  unfold yesterday2100, today2200. rewrite Hday.
  unfold MS_PER_DAY, MS_PER_HOUR. lia.
Qed.

Lemma window_length_witness :
  todayMorningIn toronto2019 springForwardMorning
  - yesterdayEveningIn toronto2019 springForwardMorning
  = 25 * MS_PER_HOUR + wallOf toronto2019 springForwardMorning mod MS_PER_SECOND
    - (toronto2019 springForwardMorning
       - toronto2019 (springForwardMorning - MS_PER_DAY)).
Proof.
  apply (window_length toronto2019 springForwardMorning springForwardMorning).
  - exact (proj1 springForwardMorning_settled).
  - exact (proj2 springForwardMorning_settled).
  - reflexivity.
Defined.

(** X16: with the offset settled around the two bounds, entries timed at or
    before yesterday 21:00 (local clock), or at or after today 22:00:01, do
    not count: adding such entries to either answer leaves the kept samples,
    and so the total, as they are. *)
Theorem entries_outside_window_ignored tz t3 t4 yesterday today extraY extraT :
  yesterdaySettled tz t3 ->
  todaySettled tz t4 ->
  Forall (fun x =>
            momentUnix (time x) <= yesterday2100 tz t3
            \/ today2200 tz t4 + MS_PER_SECOND <= momentUnix (time x))
         (extraY ++ extraT) ->
  snowArray (yesterdayEveningIn tz t3) (todayMorningIn tz t4)
            {| hourly_data := hourly_data yesterday ++ extraY |}
            {| hourly_data := hourly_data today ++ extraT |}
  = snowArray (yesterdayEveningIn tz t3) (todayMorningIn tz t4) yesterday today.
Proof.
  intros HY HT Hall. rewrite !(snowArrayIn_eq tz t3 t4 _ _ HY HT).
  cbn [hourly_data].
  assert (Hms : 0 <= wallOf tz t4 mod MS_PER_SECOND < MS_PER_SECOND)
    by (apply Z.mod_pos_bound; reflexivity).
  assert (Hout : forall l,
             Forall (fun x =>
                       momentUnix (time x) <= yesterday2100 tz t3
                       \/ today2200 tz t4 + MS_PER_SECOND <= momentUnix (time x)) l ->
             filter (fun x =>
                       (yesterday2100 tz t3 <? sample_time x)
                       && (sample_time x
                           <? today2200 tz t4 + wallOf tz t4 mod MS_PER_SECOND))
                    (map toSample l) = []).
  { intros l Hl. apply filter_none. apply Forall_forall. intros x Hin.
    apply in_map_iff in Hin. destruct Hin as (d & <- & Hd).
    rewrite Forall_forall in Hl. specialize (Hl d Hd). cbn [toSample sample_time].
    apply andb_false_iff. rewrite !Z.ltb_ge. lia. }
  apply Forall_app in Hall. destruct Hall as [HYx HTx].
  rewrite !map_app, !filter_app, (Hout extraY HYx), (Hout extraT HTx).
  now rewrite !app_nil_r.
Qed.

Lemma entries_outside_window_ignored_witness :
  snowArray (yesterdayEveningIn toronto2019 springForwardMorning)
            (todayMorningIn toronto2019 springForwardMorning)
            {| hourly_data :=
                 hourly_data springYesterday
                 ++ [ {| time := 1552179600; precipAccumulation := Some 7%Q |} ] |}
            {| hourly_data :=
                 hourly_data springToday
                 ++ [ {| time := 1552273200; precipAccumulation := Some 9%Q |} ] |}
  = snowArray (yesterdayEveningIn toronto2019 springForwardMorning)
              (todayMorningIn toronto2019 springForwardMorning)
              springYesterday springToday.
Proof.
  apply (entries_outside_window_ignored toronto2019 springForwardMorning
           springForwardMorning springYesterday springToday
           [ {| time := 1552179600; precipAccumulation := Some 7%Q |} ]
           [ {| time := 1552273200; precipAccumulation := Some 9%Q |} ]).
  - exact (proj1 springForwardMorning_settled).
  - exact (proj2 springForwardMorning_settled).
  - simpl. constructor; [|constructor; [|constructor]].
    + left. vm_compute. discriminate.
    + right. vm_compute. discriminate.
Defined.
